(** * Pipe velocity calculator and velocimeter calibration (velocidad.py)

    A shallow embedding of [PipeVelocityCalculator]: the flow-unit
    conversion, the velocity analysis, the handlers of the calculator tab
    and of the calibration tab, and the statistics derived from the
    calibration points.

    - Python floats are IEEE 754 binary64 values; they are embedded as
      Rocq's primitive floats, whose operations are the same binary64
      operations, so the handlers can be run on concrete inputs.
    - A handler is a function on the state of the window. Its body is
      written in a small monad that threads the window and stops at an
      early [return] or at a raised exception, as the Python body does.
    - The text of a line edit is kept as what the handlers can observe of
      it: empty, rejected by [float()], or parsed to a float.
    - The C library's [pow], which Python's [**] calls, numpy's
      reductions, the matplotlib drawing and the file write are parameters
      of the handlers. Setters of Qt widgets are taken to return normally. *)

From Stdlib Require Import ZArith List Bool String Ascii Lia Floats DecimalString FinFun.
Import ListNotations.

Set Warnings "-inexact-float".
Open Scope string_scope.
Open Scope list_scope.

(** ** Python values *)

(** The numbers the program handles: Python [int]s (the literal defaults
    [0]) and Python [float]s. *)
Inductive num : Type :=
| PyInt (z : Z)
| PyFloat (f : float).

(** Conversion of a Python [int] to [float]: rounding to nearest even.
    (Python raises OverflowError for integers beyond the binary64 range; only
    [0] and [2] are converted in this program.) *)
Definition float_of_int (z : Z) : float :=
  SF2Prim (binary_normalize prec emax z 0 false).

Definition float_of_num (n : num) : float :=
  match n with
  | PyInt z => float_of_int z
  | PyFloat f => f
  end.

(** The exceptions the modelled code can raise. [LinAlgError] is
    numpy.linalg.LinAlgError, a subclass of ValueError; [LibraryError] stands
    for any other exception raised by a library call (numpy, matplotlib, the
    file system), none of them a ValueError. *)
Inductive exn : Type :=
| ValueError
| ZeroDivisionError
| OverflowError
| IndexError
| LinAlgError (msg : string)
| LibraryError (msg : string).

(** [isinstance(e, ValueError)]: what an [except ValueError] clause catches. *)
Definition is_ValueError (e : exn) : bool :=
  match e with
  | ValueError | LinAlgError _ => true
  | _ => false
  end.

Inductive result (A : Type) : Type :=
| Ok (a : A)
| Raise (e : exn).
Arguments Ok {A} a.
Arguments Raise {A} e.

Definition raises {A : Type} (r : result A) : Prop := exists e, r = Raise e.

(** A [dict] with integer keys, in insertion order, and [dict.get(k, d)]. *)
Fixpoint dict_get {V : Type} (d : list (Z * V)) (k : Z) (default : V) : V :=
  match d with
  | [] => default
  | (k', v) :: d' => if (k' =? k)%Z then v else dict_get d' k default
  end.

(** ** convert_flow_to_m3_per_s *)

Definition conversions (flow_value : float) : list (Z * num) :=
  [ (0%Z, PyFloat (flow_value / 3600));        (* m3/h  *)
    (1%Z, PyFloat (flow_value / 3600000));     (* L/h   *)
    (2%Z, PyFloat (flow_value / 60000));       (* L/min *)
    (3%Z, PyFloat (flow_value / 1000));        (* L/s   *)
    (4%Z, PyFloat flow_value);                 (* m3/s  *)
    (5%Z, PyFloat (flow_value * 0.00006309));  (* GPM   *)
    (6%Z, PyFloat (flow_value * 0.00047194))   (* CFM   *)
  ]%float.

(** The method builds the dictionary and returns
    [conversions.get(unit_index, 0)]; no operation in it can raise on a
    float argument (the divisors are non-zero constants). *)
Definition convert_flow_to_m3_per_s (flow_value : float) (unit_index : Z)
  : result num :=
  Ok (dict_get (conversions flow_value) unit_index (PyInt 0)).

Definition supported_unit (unit_index : Z) : Prop := (0 <= unit_index <= 6)%Z.

(** ** Float operations of Python that can raise *)

(** [a / b] on floats raises ZeroDivisionError when [b] is zero. *)
Definition py_truediv (a b : float) : result float :=
  if (b =? 0)%float then Raise ZeroDivisionError else Ok (a / b)%float.

(** [x ** 2] on a float, as CPython's [float_pow] computes it at the
    exponent 2.0. nan, the infinities, zero and a base of absolute value 1
    are answered without the C library. Otherwise the result is the C
    library's [pow(|x|, 2.0)]: [libm_pow] gives its value and whether it left
    [errno] at ERANGE. The value is not always the correctly rounded square.
    [errno] is then adjusted (set when the value is infinite, dropped when
    the value is zero) and, when set, OverflowError is raised. *)
Definition py_pow2 (libm_pow : float -> float -> float * bool) (x : float)
  : result float :=
  if is_nan x then Ok x
  else if is_infinity x then Ok (abs x)
  else if (x =? 0)%float then Ok 0%float
  else
    let iv := abs x in
    if (iv =? 1)%float then Ok 1%float
    else
      let (ix, erange) := libm_pow iv 2%float in
      let erange := if erange then negb (ix =? 0)%float else is_infinity ix in
      if erange then Raise OverflowError else Ok ix.

Arguments py_pow2 : simpl never.

(** [math.pi], the binary64 value nearest to pi. *)
Definition math_pi : float := 0x1.921fb54442d18p+1%float.

(** The builtins [max] and [min] on a list of floats: the first element,
    replaced by each later item that compares greater (smaller); ValueError
    on an empty list. *)
Definition py_max (l : list float) : result float :=
  match l with
  | [] => Raise ValueError
  | x :: xs => Ok (fold_left (fun m item => if (m <? item)%float then item else m) xs x)
  end.

Definition py_min (l : list float) : result float :=
  match l with
  | [] => Raise ValueError
  | x :: xs => Ok (fold_left (fun m item => if (item <? m)%float then item else m) xs x)
  end.

(** [a * b] on numbers: integer product of two ints, float product
    otherwise. *)
Definition num_mul (a b : num) : num :=
  match a, b with
  | PyInt x, PyInt y => PyInt (x * y)
  | _, _ => PyFloat (float_of_num a * float_of_num b)%float
  end.

(** [str.split(sep)] for a one-character separator. *)
Fixpoint split (sep : ascii) (s : string) : list string :=
  match s with
  | EmptyString => [EmptyString]
  | String c s' =>
      if Ascii.eqb c sep then EmptyString :: split sep s'
      else match split sep s' with
           | h :: t => String c h :: t
           | [] => [String c EmptyString]
           end
  end.

(** [l[i]] for a non-negative literal index. *)
Definition py_index {A : Type} (l : list A) (i : nat) : result A :=
  match nth_error l i with
  | Some a => Ok a
  | None => Raise IndexError
  end.

(** ** analyze_velocity *)

Definition analyze_velocity (velocity : float) : string :=
  if (velocity <? 0.5)%float then "Velocidad BAJA - Posible sedimentación"
  else if (velocity <=? 1.5)%float then "Velocidad ÓPTIMA para tuberías de agua"
  else if (velocity <=? 3.0)%float then "Velocidad ACEPTABLE - Monitorear erosión"
  else if (velocity <=? 5.0)%float then "Velocidad ALTA - Posible erosión y ruido"
  else "Velocidad MUY ALTA - REVISAR diseño".

(** ** The window: widgets and calibration data *)

(** What [QLineEdit.text().strip()] holds, as the handlers observe it: the
    empty string, a non-empty string that [float()] rejects with ValueError,
    or a string that [float()] parses to a binary64 value (which may be
    nan or an infinity: [float('nan')], [float('inf')]). *)
Inductive line_text : Type :=
| Blank
| NotNumeric
| Numeric (x : float).

(** Truth value of the stripped string. *)
Definition nonempty (t : line_text) : bool :=
  match t with Blank => false | _ => true end.

(** [float(s)]. *)
Definition py_float (t : line_text) : result float :=
  match t with
  | Numeric x => Ok x
  | _ => Raise ValueError
  end.

Inductive LineEdit : Type :=
| caudal_input | diametro_input | espesor_input
| calib_diametro | calib_espesor | calib_caudal | calib_velocidad_equipo.

Inductive ComboBox : Type :=
| caudal_units | calib_caudal_units.

Definition LineEdit_eqb (a b : LineEdit) : bool :=
  match a, b with
  | caudal_input, caudal_input | diametro_input, diametro_input
  | espesor_input, espesor_input | calib_diametro, calib_diametro
  | calib_espesor, calib_espesor | calib_caudal, calib_caudal
  | calib_velocidad_equipo, calib_velocidad_equipo => true
  | _, _ => false
  end.

Definition ComboBox_eqb (a b : ComboBox) : bool :=
  match a, b with
  | caudal_units, caudal_units | calib_caudal_units, calib_caudal_units => true
  | _, _ => false
  end.

(** The items given to [addItems] in the two tabs. *)
Definition items (c : ComboBox) : list string :=
  match c with
  | caudal_units =>
      [ "m³/h (metros cúbicos por hora)";
        "L/h (litros por hora)";
        "L/min (litros por minuto)";
        "L/s (litros por segundo)";
        "m³/s (metros cúbicos por segundo)";
        "GPM (galones por minuto)";
        "CFM (pies cúbicos por minuto)" ]
  | calib_caudal_units =>
      [ "m³/h"; "L/h"; "L/min"; "L/s"; "m³/s"; "GPM"; "CFM" ]
  end.

(** One entry of [calibration_data]: the dictionary with the keys 'punto',
    'velocidad_patron', 'velocidad_equipo' and 'error'. *)
Record CalibrationPoint : Type := mkPoint {
  punto : Z;
  velocidad_patron : float;
  velocidad_equipo : float;
  error : float
}.

(** The [statistics] dictionary of [update_calibration_plot]. *)
Record Statistics : Type := mkStatistics {
  mean_error : float;
  std_error : num;
  max_error : float;
  min_error : float
}.

(** The canvas: cleared; showing the last data handed to [update_plot];
    or left by the [update_plot] of these data, which raised: the axes hold
    what that call left on them (see [CalibrationPlot_update_plot]). *)
Inductive Plot : Type :=
| PlotCleared
| PlotShown (velocity_patron errors : list float) (statistics : Statistics)
| PlotInterrupted (velocity_patron errors : list float) (statistics : Statistics).

(** The values formatted into the statistics text box. *)
Record StatsText : Type := mkStatsText {
  st_puntos : Z;
  st_mean_error : float;
  st_std_error : num;
  st_max_error : float;
  st_min_error : float;
  st_incertidumbre : num;
  st_min_patron : float;
  st_max_patron : float
}.

(** The values formatted into the results box of the calculator tab. *)
Record Results : Type := mkResults {
  r_caudal : float;
  r_unit_text : string;
  r_diametro_exterior : float;
  r_espesor : float;
  r_diametro_interior_mm : float;
  r_diametro_interior_m : float;
  r_area_m2 : float;
  r_caudal_m3_s : num;
  r_velocidad : float;
  r_analisis : string
}.

(** The values formatted into the exported report. *)
Record Report : Type := mkReport {
  rp_diametro : line_text;
  rp_espesor : line_text;
  rp_diametro_interior : float;
  rp_puntos : list CalibrationPoint;
  rp_mean_error : float;
  rp_std_error : num;
  rp_max_error : float;
  rp_min_error : float;
  rp_incertidumbre : num
}.

(** A [QMessageBox] shown to the user. *)
Inductive dialog : Type :=
| Warning (title text : string)
| Critical (title text : string)
| CriticalExn (title prefix : string) (e : exn)
| Information (title text : string)
| Question (title text : string).

(** The state of a [PipeVelocityCalculator]: the calibration list, the
    contents of its widgets, and the observable effects so far (dialogs
    shown, report files written, oldest first). *)
Record Window : Type := mkWindow {
  calibration_data : list CalibrationPoint;
  text : LineEdit -> line_text;
  currentIndex : ComboBox -> Z;
  calib_table : list CalibrationPoint;
  plot_widget : Plot;
  stats_text : option StatsText;
  results_text : option Results;
  dialogs : list dialog;
  files : list (string * Report)
}.

Definition set_calibration_data (d : list CalibrationPoint) (w : Window) : Window :=
  mkWindow d (text w) (currentIndex w) (calib_table w) (plot_widget w)
           (stats_text w) (results_text w) (dialogs w) (files w).

Definition set_text (t : LineEdit -> line_text) (w : Window) : Window :=
  mkWindow (calibration_data w) t (currentIndex w) (calib_table w) (plot_widget w)
           (stats_text w) (results_text w) (dialogs w) (files w).

Definition set_currentIndex (c : ComboBox -> Z) (w : Window) : Window :=
  mkWindow (calibration_data w) (text w) c (calib_table w) (plot_widget w)
           (stats_text w) (results_text w) (dialogs w) (files w).

Definition set_calib_table (t : list CalibrationPoint) (w : Window) : Window :=
  mkWindow (calibration_data w) (text w) (currentIndex w) t (plot_widget w)
           (stats_text w) (results_text w) (dialogs w) (files w).

Definition set_plot_widget (p : Plot) (w : Window) : Window :=
  mkWindow (calibration_data w) (text w) (currentIndex w) (calib_table w) p
           (stats_text w) (results_text w) (dialogs w) (files w).

Definition set_stats_text (s : option StatsText) (w : Window) : Window :=
  mkWindow (calibration_data w) (text w) (currentIndex w) (calib_table w) (plot_widget w)
           s (results_text w) (dialogs w) (files w).

Definition set_results_text (r : option Results) (w : Window) : Window :=
  mkWindow (calibration_data w) (text w) (currentIndex w) (calib_table w) (plot_widget w)
           (stats_text w) r (dialogs w) (files w).

Definition set_dialogs (d : list dialog) (w : Window) : Window :=
  mkWindow (calibration_data w) (text w) (currentIndex w) (calib_table w) (plot_widget w)
           (stats_text w) (results_text w) d (files w).

Definition set_files (f : list (string * Report)) (w : Window) : Window :=
  mkWindow (calibration_data w) (text w) (currentIndex w) (calib_table w) (plot_widget w)
           (stats_text w) (results_text w) (dialogs w) f.

(** [__init__]: an empty calibration list; empty line edits; each combo box
    on its first item; empty table and text boxes; a cleared plot. *)
Definition initial_window : Window :=
  mkWindow [] (fun _ => Blank) (fun _ => 0%Z) [] PlotCleared None None [] [].

(** ** Method bodies: state, early [return] and exceptions *)

Inductive ctl (A : Type) : Type :=
| Next (a : A)
| Return
| Except (e : exn).
Arguments Next {A} a.
Arguments Return {A}.
Arguments Except {A} e.

Definition M (A : Type) : Type := Window -> ctl A * Window.

Definition ret {A : Type} (a : A) : M A := fun w => (Next a, w).

Definition bind {A B : Type} (m : M A) (k : A -> M B) : M B :=
  fun w =>
    match m w with
    | (Next a, w') => k a w'
    | (Return, w') => (Return, w')
    | (Except e, w') => (Except e, w')
    end.

Notation "x <- m ;; k" := (bind m (fun x => k))
  (at level 61, m at next level, right associativity).
Notation "m ;;; k" := (bind m (fun _ => k))
  (at level 61, right associativity).

Definition return_ {A : Type} : M A := fun w => (Return, w).

Definition lift {A : Type} (r : result A) : M A :=
  fun w => match r with Ok a => (Next a, w) | Raise e => (Except e, w) end.

Definition read {A : Type} (f : Window -> A) : M A := fun w => (Next (f w), w).

Definition write (f : Window -> Window) : M unit := fun w => (Next tt, f w).

Definition when (b : bool) (m : M unit) : M unit := if b then m else ret tt.

Definition show (d : dialog) : M unit :=
  write (fun w => set_dialogs (dialogs w ++ [d]) w).

(** A call of a method whose body is [m]: its [return] ends the method, not
    the caller. *)
Definition call (m : M unit) : M unit :=
  fun w =>
    match m w with
    | (Return, w') => (Next tt, w')
    | r => r
    end.

(** [widget.clear()] and [setCurrentIndex] on the input widgets. *)
Definition clear_line (l : LineEdit) : M unit :=
  write (fun w => set_text (fun l' => if LineEdit_eqb l l' then Blank else text w l') w).

Definition setCurrentIndex (c : ComboBox) (i : Z) : M unit :=
  write (fun w =>
           set_currentIndex (fun c' => if ComboBox_eqb c c' then i else currentIndex w c') w).

(** [currentText()]: the current item, or the empty string without one. *)
Definition currentText (c : ComboBox) : M string :=
  read (fun w =>
          let i := currentIndex w c in
          if (i <? 0)%Z then EmptyString else nth (Z.to_nat i) (items c) EmptyString).

(** [try: body except ...]: [on_exn] gives the dialog each handler clause
    shows; the early [return] of the body ends the method. *)
Definition try_except (body : M unit) (on_exn : exn -> dialog) : Window -> Window :=
  fun w =>
    match body w with
    | (Except e, w') => set_dialogs (dialogs w' ++ [on_exn e]) w'
    | (_, w') => w'
    end.

(** A method without a [try]: no body below raises. *)
Definition method (body : M unit) : Window -> Window :=
  fun w => snd (body w).

(** The two clauses shared by [calculate_velocity] and
    [add_calibration_point]: [except ValueError] and [except Exception as e]. *)
Definition numeric_handlers (e : exn) : dialog :=
  if is_ValueError e then Critical "Error" "Valores numéricos inválidos."
  else CriticalExn "Error" "Error: " e.

Definition is_empty {A : Type} (l : list A) : bool :=
  match l with [] => true | _ => false end.

(** [len(l)] as a Python integer. *)
Definition len {A : Type} (l : list A) : Z := Z.of_nat (List.length l).

(** ** calculate_velocity *)

Definition calculate_velocity (libm_pow : float -> float -> float * bool)
  : Window -> Window :=
  try_except
    (caudal_str <- read (fun w => text w caudal_input) ;;
     diametro_str <- read (fun w => text w diametro_input) ;;
     espesor_str <- read (fun w => text w espesor_input) ;;
     when (negb (nonempty caudal_str) || negb (nonempty diametro_str)
           || negb (nonempty espesor_str))
          (show (Warning "Error" "Por favor, complete todos los campos.") ;;; return_) ;;;
     caudal <- lift (py_float caudal_str) ;;
     diametro_exterior <- lift (py_float diametro_str) ;;
     espesor <- lift (py_float espesor_str) ;;
     when ((caudal <=? 0) || (diametro_exterior <=? 0) || (espesor <? 0))%float
          (show (Warning "Error" "Valores inválidos.") ;;; return_) ;;;
     when (diametro_exterior / 2 <=? espesor)%float
          (show (Warning "Error" "El espesor es demasiado grande.") ;;; return_) ;;;
     unit_index <- read (fun w => currentIndex w caudal_units) ;;
     caudal_m3_s <- lift (convert_flow_to_m3_per_s caudal unit_index) ;;
     let diametro_interior_mm := (diametro_exterior - 2 * espesor)%float in
     let diametro_interior_m := (diametro_interior_mm / 1000)%float in
     sq <- lift (py_pow2 libm_pow (diametro_interior_m / 2)%float) ;;
     let area_m2 := (math_pi * sq)%float in
     velocidad <- lift (py_truediv (float_of_num caudal_m3_s) area_m2) ;;
     current <- currentText caudal_units ;;
     after <- lift (py_index (split "(" current) 1) ;;
     unit_text <- lift (py_index (split ")" after) 0) ;;
     write (set_results_text
              (Some (mkResults caudal unit_text diametro_exterior espesor
                               diametro_interior_mm diametro_interior_m area_m2
                               caudal_m3_s velocidad (analyze_velocity velocidad)))))
    numeric_handlers.

(** [clear_fields]. *)
Definition clear_fields : Window -> Window :=
  method
    (clear_line caudal_input ;;;
     clear_line diametro_input ;;;
     clear_line espesor_input ;;;
     write (set_results_text None) ;;;
     setCurrentIndex caudal_units 0).

(** ** The calibration tab *)

Section Calibration.

(** Library code the handlers call. [libm_pow] is the C library's [pow]
    (see [py_pow2]). [np_mean] is [np.mean] and [np_std] is
    [np.std(_, ddof=1)], each on a non-empty list of floats.
    [update_plot] is [CalibrationPlot.update_plot], made of matplotlib
    drawing calls and [np.polyfit], which may raise; [write_file] opens the
    named file and writes the report, which may raise.
    [CalibrationPlot.clear_plot] is taken to return. *)
Variable libm_pow : float -> float -> float * bool.
Variable np_mean : list float -> float.
Variable np_std : list float -> float.
Variable update_plot : list float -> list float -> Statistics -> result unit.
Variable write_file : string -> Report -> result unit.

(** [np.std(errors, ddof=1) if len(errors) > 1 else 0]. *)
Definition std_of (errors : list float) : num :=
  if (1 <? len errors)%Z then PyFloat (np_std errors) else PyInt 0.

Definition update_calibration_table : M unit :=
  call (data <- read calibration_data ;;
        write (set_calib_table data)).

Definition update_calibration_plot : M unit :=
  call (data <- read calibration_data ;;
        when (is_empty data)
             (write (set_plot_widget PlotCleared) ;;; return_) ;;;
        let velocity_patron := map velocidad_patron data in
        let errors := map error data in
        let mean := np_mean errors in
        let std := std_of errors in
        max_e <- lift (py_max errors) ;;
        min_e <- lift (py_min errors) ;;
        let statistics := mkStatistics mean std max_e min_e in
        (* [update_plot] clears the axes and draws; when it raises, the
           canvas keeps what the call left on it *)
        write (set_plot_widget (PlotInterrupted velocity_patron errors statistics)) ;;;
        lift (update_plot velocity_patron errors statistics) ;;;
        write (set_plot_widget (PlotShown velocity_patron errors statistics)) ;;;
        min_v <- lift (py_min velocity_patron) ;;
        max_v <- lift (py_max velocity_patron) ;;
        write (set_stats_text
                 (Some (mkStatsText (len data) mean std max_e min_e
                                    (num_mul (PyInt 2) std) min_v max_v)))).

Definition add_calibration_point : Window -> Window :=
  try_except
    (diametro_str <- read (fun w => text w calib_diametro) ;;
     espesor_str <- read (fun w => text w calib_espesor) ;;
     caudal_str <- read (fun w => text w calib_caudal) ;;
     velocidad_equipo_str <- read (fun w => text w calib_velocidad_equipo) ;;
     when (negb (nonempty diametro_str && nonempty espesor_str
                 && nonempty caudal_str && nonempty velocidad_equipo_str))
          (show (Warning "Error" "Complete todos los campos.") ;;; return_) ;;;
     diametro_exterior <- lift (py_float diametro_str) ;;
     espesor <- lift (py_float espesor_str) ;;
     caudal <- lift (py_float caudal_str) ;;
     velocidad_equipo <- lift (py_float velocidad_equipo_str) ;;
     when ((diametro_exterior <=? 0) || (espesor <? 0) || (caudal <=? 0))%float
          (show (Warning "Error" "Valores inválidos.") ;;; return_) ;;;
     when (diametro_exterior / 2 <=? espesor)%float
          (show (Warning "Error" "Espesor demasiado grande.") ;;; return_) ;;;
     unit_index <- read (fun w => currentIndex w calib_caudal_units) ;;
     caudal_m3_s <- lift (convert_flow_to_m3_per_s caudal unit_index) ;;
     let diametro_interior_m := ((diametro_exterior - 2 * espesor) / 1000)%float in
     sq <- lift (py_pow2 libm_pow (diametro_interior_m / 2)%float) ;;
     let area_m2 := (math_pi * sq)%float in
     velocidad_patron <- lift (py_truediv (float_of_num caudal_m3_s) area_m2) ;;
     let error := (velocidad_equipo - velocidad_patron)%float in
     n <- read (fun w => len (calibration_data w)) ;;
     let punto := (n + 1)%Z in
     write (fun w =>
              set_calibration_data
                (calibration_data w
                   ++ [mkPoint punto velocidad_patron velocidad_equipo error]) w) ;;;
     update_calibration_table ;;;
     update_calibration_plot ;;;
     clear_line calib_caudal ;;;
     clear_line calib_velocidad_equipo ;;;
     n' <- read (fun w => len (calibration_data w)) ;;
     when (10 <=? n')%Z
          (show (Information "Calibración"
                   "Se han ingresado 10 puntos. Calibración completa.")))
    numeric_handlers.

(** [clear_calibration]; [reply_yes] is the user's answer to the question
    dialog. *)
Definition clear_calibration (reply_yes : bool) : Window -> Window :=
  method
    (show (Question "Confirmar"
             "¿Está seguro de limpiar todos los datos de calibración?") ;;;
     when reply_yes
          (write (set_calibration_data []) ;;;
           write (set_calib_table []) ;;;
           write (set_plot_widget PlotCleared) ;;;
           write (set_stats_text None))).

Definition filename (n : Z) : string :=
  ("calibracion_velocimetro_"
     ++ NilZero.string_of_int (Z.to_int n) ++ "_puntos.txt")%string.

Definition export_results : Window -> Window :=
  fun w =>
    if is_empty (calibration_data w) then
      set_dialogs (dialogs w ++ [Warning "Error"
                                   "No hay datos de calibración para exportar."]) w
    else
      try_except
        (diametro <- read (fun w => text w calib_diametro) ;;
         espesor <- read (fun w => text w calib_espesor) ;;
         d <- lift (py_float diametro) ;;
         e <- lift (py_float espesor) ;;
         let interior := (d - 2 * e)%float in
         data <- read calibration_data ;;
         let errors := map error data in
         let mean_error := np_mean errors in
         let std_error := std_of errors in
         max_e <- lift (py_max errors) ;;
         min_e <- lift (py_min errors) ;;
         let report :=
           mkReport diametro espesor interior data mean_error std_error
                    max_e min_e (num_mul (PyInt 2) std_error) in
         let name := filename (len data) in
         lift (write_file name report) ;;;
         write (fun w => set_files (files w ++ [(name, report)]) w) ;;;
         show (Information "Exportación"
                 ("Resultados exportados a: " ++ name)%string))
        (fun e => CriticalExn "Error" "Error al exportar: " e)
        w.

(** ** The user's actions *)

Inductive event : Type :=
| Edit (l : LineEdit) (t : line_text)
| Select (c : ComboBox) (i : Z)
| ClickCalculate
| ClickClearFields
| ClickAddPoint
| ClickClearCalibration (reply_yes : bool)
| ClickExport.

Definition step (w : Window) (ev : event) : Window :=
  match ev with
  | Edit l t => set_text (fun l' => if LineEdit_eqb l l' then t else text w l') w
  | Select c i =>
      set_currentIndex (fun c' => if ComboBox_eqb c c' then i else currentIndex w c') w
  | ClickCalculate => calculate_velocity libm_pow w
  | ClickClearFields => clear_fields w
  | ClickAddPoint => add_calibration_point w
  | ClickClearCalibration reply_yes => clear_calibration reply_yes w
  | ClickExport => export_results w
  end.

Definition run (evs : list event) (w : Window) : Window := fold_left step evs w.

(** Every point the session creates while [evs] are handled, in order of
    creation: what each click on "Agregar Punto" appends. *)
Fixpoint created (evs : list event) (w : Window) : list CalibrationPoint :=
  match evs with
  | [] => []
  | ev :: evs' =>
      let w' := step w ev in
      match ev with
      | ClickAddPoint =>
          skipn (List.length (calibration_data w)) (calibration_data w')
      | _ => []
      end ++ created evs' w'
  end.

(** The statistics [update_calibration_plot] computes for the points
    [data], and the call of [update_plot] it makes with them. *)
Definition statistics_of (data : list CalibrationPoint) : result Statistics :=
  let errors := map error data in
  match py_max errors with
  | Raise e => Raise e
  | Ok max_e =>
      match py_min errors with
      | Raise e => Raise e
      | Ok min_e => Ok (mkStatistics (np_mean errors) (std_of errors) max_e min_e)
      end
  end.

Definition draw_of (data : list CalibrationPoint) : result unit :=
  match statistics_of data with
  | Raise e => Raise e
  | Ok statistics => update_plot (map velocidad_patron data) (map error data) statistics
  end.

Definition returned {A : Type} (r : result A) : bool :=
  match r with Ok _ => true | Raise _ => false end.

(** Every drawing of the plot made while [evs] are handled returned: each
    click that appended a point drew the new list without raising. *)
Fixpoint draws_return (evs : list event) (w : Window) : bool :=
  match evs with
  | [] => true
  | ev :: evs' =>
      let w' := step w ev in
      match ev with
      | ClickAddPoint =>
          if (List.length (calibration_data w) <? List.length (calibration_data w'))%nat
          then returned (draw_of (calibration_data w'))
          else true
      | _ => true
      end && draws_return evs' w'
  end.

End Calibration.

(** ** Notions used by the statements *)

(** The reference velocity as both handlers compute it: the converted flow
    divided by the area [math.pi * (diametro_interior_m / 2) ** 2]. *)
Definition reference_velocity (libm_pow : float -> float -> float * bool)
           (diametro_exterior espesor caudal : float)
           (unit_index : Z) : result float :=
  match convert_flow_to_m3_per_s caudal unit_index with
  | Raise e => Raise e
  | Ok caudal_m3_s =>
      match py_pow2 libm_pow ((diametro_exterior - 2 * espesor) / 1000 / 2)%float with
      | Raise e => Raise e
      | Ok sq => py_truediv (float_of_num caudal_m3_s) (math_pi * sq)%float
      end
  end.

(** The validations of [add_calibration_point] on parsed values. *)
Definition rejected (diametro_exterior espesor caudal : float) : bool :=
  ((diametro_exterior <=? 0) || (espesor <? 0) || (caudal <=? 0)
   || (diametro_exterior / 2 <=? espesor))%float.

(** The point [add_calibration_point] appends to the data of [w], if any. *)
Definition new_point (libm_pow : float -> float -> float * bool) (w : Window)
  : option CalibrationPoint :=
  match text w calib_diametro, text w calib_espesor,
        text w calib_caudal, text w calib_velocidad_equipo with
  | Numeric d, Numeric e, Numeric c, Numeric v =>
      if rejected d e c then None
      else match reference_velocity libm_pow d e c
                   (currentIndex w calib_caudal_units) with
           | Ok vp => Some (mkPoint (len (calibration_data w) + 1) vp v (v - vp)%float)
           | Raise _ => None
           end
  | _, _, _, _ => None
  end.

(** The advisory shown when ten points have been entered. *)
Definition advisory : dialog :=
  Information "Calibración" "Se han ingresado 10 puntos. Calibración completa.".

(** The indexes of a point list are 1, 2, ..., n in order. *)
Definition well_numbered (data : list CalibrationPoint) : Prop :=
  map punto data = map Z.of_nat (seq 1 (List.length data)).

(** The regimes of the specification, the text [analyze_velocity] returns for
    each, and the velocity range the specification gives each. *)
Inductive Regime : Type := LOW | OPTIMAL | ACCEPTABLE | HIGH | VERY_HIGH.

Definition regime_text (r : Regime) : string :=
  match r with
  | LOW => "Velocidad BAJA - Posible sedimentación"
  | OPTIMAL => "Velocidad ÓPTIMA para tuberías de agua"
  | ACCEPTABLE => "Velocidad ACEPTABLE - Monitorear erosión"
  | HIGH => "Velocidad ALTA - Posible erosión y ruido"
  | VERY_HIGH => "Velocidad MUY ALTA - REVISAR diseño"
  end.

Definition in_regime (v : float) (r : Regime) : Prop :=
  match r with
  | LOW => (v <? 0.5)%float = true
  | OPTIMAL => (0.5 <=? v)%float = true /\ (v <=? 1.5)%float = true
  | ACCEPTABLE => (1.5 <? v)%float = true /\ (v <=? 3.0)%float = true
  | HIGH => (3.0 <? v)%float = true /\ (v <=? 5.0)%float = true
  | VERY_HIGH => (5.0 <? v)%float = true
  end.

(** A method body never touches the calibration list. *)
Definition keeps_data {A : Type} (m : M A) : Prop :=
  forall w, calibration_data (snd (m w)) = calibration_data w.

(** The rejections of [add_calibration_point] in the words of the
    specification: a missing field, a non-numeric value, flow <= 0, outer
    diameter <= 0, wall thickness < 0, or wall thickness >= outer
    diameter / 2. *)
Definition is_blank (t : line_text) : bool :=
  match t with Blank => true | _ => false end.

Definition is_not_numeric (t : line_text) : bool :=
  match t with NotNumeric => true | _ => false end.

Definition fails_validation (w : Window) : bool :=
  let fields :=
    map (text w) [calib_diametro; calib_espesor; calib_caudal; calib_velocidad_equipo] in
  existsb is_blank fields
  || existsb is_not_numeric fields
  || match text w calib_caudal with Numeric c => (c <=? 0)%float | _ => false end
  || match text w calib_diametro with Numeric d => (d <=? 0)%float | _ => false end
  || match text w calib_espesor with Numeric e => (e <? 0)%float | _ => false end
  || match text w calib_diametro, text w calib_espesor with
     | Numeric d, Numeric e => (d / 2 <=? e)%float
     | _, _ => false
     end.

(** A window whose calibration inputs hold the given texts and unit. *)
Definition with_calibration_inputs (d e c v : line_text) (unit_index : Z)
           (w : Window) : Window :=
  set_currentIndex
    (fun cb => if ComboBox_eqb calib_caudal_units cb then unit_index else currentIndex w cb)
    (set_text
       (fun l =>
          match l with
          | calib_diametro => d
          | calib_espesor => e
          | calib_caudal => c
          | calib_velocidad_equipo => v
          | _ => text w l
          end) w).

(** A window whose calculator inputs hold the given texts and unit. *)
Definition with_calculator_inputs (c d e : line_text) (unit_index : Z)
           (w : Window) : Window :=
  set_currentIndex
    (fun cb => if ComboBox_eqb caudal_units cb then unit_index else currentIndex w cb)
    (set_text
       (fun l =>
          match l with
          | caudal_input => c
          | diametro_input => d
          | espesor_input => e
          | _ => text w l
          end) w).

(** Instances of the library parameters, used to run the handlers on
    concrete inputs: the textbook mean and sample standard deviation by
    sequential summation, a plot that draws without raising, a file
    system that accepts every write, and a correctly rounding [pow]. *)
Definition sequential_mean (l : list float) : float :=
  (fold_left add l 0 / float_of_int (len l))%float.

Definition two_pass_std (l : list float) : float :=
  let m := sequential_mean l in
  sqrt (fold_left (fun s x => s + (x - m) * (x - m)) l 0 / float_of_int (len l - 1))%float.

Definition quiet_plot (_ _ : list float) (_ : Statistics) : result unit := Ok tt.

(** A C library whose [pow(x, 2.0)] is the correctly rounded square and
    leaves [errno] alone. *)
Definition rounded_pow (x _ : float) : float * bool := ((x * x)%float, false).

Definition quiet_write (_ : string) (_ : Report) : result unit := Ok tt.

(** [x] is within [tol] of [target]. *)
Definition approx (x target tol : float) : bool :=
  (abs (x - target) <=? tol)%float.

(** The worked example of the specification: 10 m3/h through a pipe of
    outer diameter 114.3 mm and wall thickness 6.02 mm. *)
Definition example_1 : Window :=
  with_calculator_inputs (Numeric 10) (Numeric 114.3) (Numeric 6.02) 0 initial_window.

(** The inner radius of the worked example, in metres. *)
Definition example_1_radius : float := ((114.3 - 2 * 6.02) / 1000 / 2)%float.

(** The C library's [pow(x, 2.0)] is within one unit in the last place of
    the correctly rounded square of [x] and leaves [errno] alone. *)
Definition pow_within_one_ulp (libm_pow : float -> float -> float * bool)
           (x : float) : Prop :=
  exists y : float,
    libm_pow x 2%float = (y, false) /\
    (y = (x * x)%float \/ y = next_up (x * x) \/ y = next_down (x * x)).

(** A pipe of outer diameter 1e200 mm and no wall, with a flow of 1 m3/h. *)
Definition example_huge : Window :=
  with_calculator_inputs (Numeric 1) (Numeric 1e200) (Numeric 0) 0 initial_window.

(** The outcome of the geometry checks and of the area computation on an
    outer diameter [d] and a wall thickness [e], both in mm. *)
Inductive geometry : Type :=
| InvalidValues
| WallTooThick
| ArithmeticError (e : exn)
| Geometry (inner_mm area_m2 : float).

Definition geometry_of (libm_pow : float -> float -> float * bool) (d e : float)
  : geometry :=
  let inner := (d - 2 * e)%float in
  if ((d <=? 0) || (e <? 0))%float then InvalidValues
  else if (d / 2 <=? e)%float then WallTooThick
  else
    match py_pow2 libm_pow (inner / 1000 / 2)%float with
    | Raise ex => ArithmeticError ex
    | Ok sq =>
        let area := (math_pi * sq)%float in
        if (area =? 0)%float then ArithmeticError ZeroDivisionError
        else Geometry inner area
    end.

(** [unit_index] is one of the seven units. *)
Definition supported (unit_index : Z) : bool :=
  ((0 <=? unit_index) && (unit_index <=? 6))%Z.

(** The user enters a calibration point on a pipe of 114.3 mm by 6.02 mm:
    flow [c] in m3/h and instrument reading [v], then clicks
    "Agregar Punto". *)
Definition enter_point (c v : float) : list event :=
  [ Edit calib_diametro (Numeric 114.3); Edit calib_espesor (Numeric 6.02);
    Select calib_caudal_units 0;
    Edit calib_caudal (Numeric c); Edit calib_velocidad_equipo (Numeric v);
    ClickAddPoint ].

(** Sessions run with the instances above. *)
Definition session : list event -> Window -> Window :=
  run rounded_pow sequential_mean two_pass_std quiet_plot quiet_write.

Definition session_created : list event -> Window -> list CalibrationPoint :=
  created rounded_pow sequential_mean two_pass_std quiet_plot quiet_write.

Definition add_clear_add : list event :=
  enter_point 10 0.35 ++ [ClickClearCalibration true] ++ enter_point 20 0.70.

Definition points (n : nat) : list event := List.concat (repeat (enter_point 10 0.35) n).

(** Calibration inputs typed into a new window, before any click. *)
Definition typed (d e c v : line_text) : Window :=
  with_calibration_inputs d e c v 0 initial_window.

(** ** Notions used by the further properties *)

(** The regimes in increasing order of velocity. *)
Definition rank (r : Regime) : Z :=
  match r with
  | LOW => 0 | OPTIMAL => 1 | ACCEPTABLE => 2 | HIGH => 3 | VERY_HIGH => 4
  end.

(** A method body leaves an observation [f] of the window as it was. *)
Definition preserves {A B : Type} (f : Window -> B) (m : M A) : Prop :=
  forall w, f (snd (m w)) = f w.

(** The statistics [st] and the text box [stx] are those of the points
    [data], computed with the reductions [np_mean] and [np_std]. *)
Definition describes (np_mean np_std : list float -> float)
           (data : list CalibrationPoint) (st : Statistics) (stx : StatsText) : Prop :=
  let errors := map error data in
  let patron := map velocidad_patron data in
  mean_error st = np_mean errors /\
  std_error st = std_of np_std errors /\
  py_max errors = Ok (max_error st) /\
  py_min errors = Ok (min_error st) /\
  py_min patron = Ok (st_min_patron stx) /\
  py_max patron = Ok (st_max_patron stx) /\
  st_puntos stx = len data /\
  st_mean_error stx = mean_error st /\
  st_std_error stx = std_error st /\
  st_max_error stx = max_error st /\
  st_min_error stx = min_error st /\
  st_incertidumbre stx = num_mul (PyInt 2) (std_error st).

(** The table, the plot and the statistics box show the calibration list. *)
Definition display_current (np_mean np_std : list float -> float) (w : Window) : Prop :=
  match calibration_data w with
  | [] => plot_widget w = PlotCleared /\ stats_text w = None
  | data =>
      exists st stx,
        describes np_mean np_std data st stx /\
        plot_widget w = PlotShown (map velocidad_patron data) (map error data) st /\
        stats_text w = Some stx
  end.

(** The inputs after a click that appended a point: flow and reading are
    emptied. *)
Definition emptied (w : Window) : Window :=
  snd ((clear_line calib_caudal ;;; clear_line calib_velocidad_equipo) w).

(** The table shows the calibration list, and an empty list goes with a
    cleared plot and an empty statistics box. *)
Definition table_current (w : Window) : Prop :=
  calib_table w = calibration_data w /\
  (calibration_data w <> [] \/ (plot_widget w = PlotCleared /\ stats_text w = None)).

(** A stored point is consistent: its error is the reading minus the
    reference velocity, and its index is positive. *)
Definition consistent_point (p : CalibrationPoint) : Prop :=
  error p = (velocidad_equipo p - velocidad_patron p)%float /\ (1 <= punto p)%Z.

(** ** CalibrationPlot *)

(** What is put on the axes, in drawing order. The styling arguments and
    the labels are left out; the trend line is kept as the fitted
    coefficients and the range it is drawn over. *)
Inductive artist : Type :=
| ZeroLine
| Scatter (xs ys : list float)
| TrendLine (slope intercept x_from x_to : float)
| BandLine (y : float)
| BandFill (y_low y_high : float)
| StatsBox (mean : float) (std : num) (max_e min_e : float) (two_std : num)
| Legend.

(** [n > 0] on a number. *)
Definition num_pos (n : num) : bool :=
  match n with
  | PyInt z => (0 <? z)%Z
  | PyFloat f => (0 <? f)%float
  end.

Section Plotting.

(** The library calls of the class, each of which returns or raises.
    [axes_clear]: [self.axes.clear()]. [axes_decorate]: the calls that set
    the axis labels, the title and the grid, as one. [np_polyfit]:
    [np.polyfit(x, y, 1)], the two coefficients. [matplotlib a]: the calls
    that put the artist [a] on the axes (for the trend line [np.poly1d],
    [np.linspace] and [axes.plot], for the shading [get_xlim] and
    [fill_between]). [canvas_draw]: the final [self.draw()] of the artists
    on the axes. *)
Variable axes_clear : result unit.
Variable axes_decorate : result unit.
Variable np_polyfit : list float -> list float -> result (float * float).
Variable matplotlib : artist -> result unit.
Variable canvas_draw : list artist -> result unit.

(** The drawing calls for the artists [todo], in order, after [done] were
    drawn: the artists on the axes when the calls end, and how they end. *)
Fixpoint draw_artists (todo done : list artist) : list artist * result unit :=
  match todo with
  | [] => (done, Ok tt)
  | a :: todo' =>
      match matplotlib a with
      | Raise e => (done, Raise e)
      | Ok _ => draw_artists todo' (done ++ [a])
      end
  end.

(** The start of both methods: the axes, which held [before], are cleared
    and decorated. *)
Definition reset_axes (before : list artist) : list artist * result unit :=
  match axes_clear with
  | Raise e => (before, Raise e)
  | Ok _ => ([], axes_decorate)
  end.

(** [clear_plot] on axes that hold [before]: the axes are cleared, the
    zero line is drawn, and the canvas is redrawn. *)
Definition CalibrationPlot_clear_plot (before : list artist)
  : list artist * result unit :=
  match reset_axes before with
  | (done, Raise e) => (done, Raise e)
  | (done, Ok _) =>
      match draw_artists [ZeroLine] done with
      | (done', Raise e) => (done', Raise e)
      | (done', Ok _) => (done', canvas_draw done')
      end
  end.

(** The trend line of [update_plot], fitted only when there is more than
    one point. *)
Definition trend_line (velocity_patron errors : list float) : result (list artist) :=
  if (1 <? len velocity_patron)%Z then
    match np_polyfit velocity_patron errors with
    | Raise e => Raise e
    | Ok z =>
        match py_min velocity_patron with
        | Raise e => Raise e
        | Ok x_from =>
            match py_max velocity_patron with
            | Raise e => Raise e
            | Ok x_to => Ok [TrendLine (fst z) (snd z) x_from x_to]
            end
        end
    end
  else Ok [].

(** The uncertainty band of [update_plot], drawn only when the standard
    deviation is greater than 0. *)
Definition uncertainty_band (statistics : Statistics) : list artist :=
  if num_pos (std_error statistics) then
    let mean_error := mean_error statistics in
    let two_std := float_of_num (num_mul (PyInt 2) (std_error statistics)) in
    [ BandLine (mean_error + two_std)%float;
      BandLine (mean_error - two_std)%float;
      BandFill (mean_error - two_std)%float (mean_error + two_std)%float ]
  else [].

(** [update_plot] on axes that hold [before]: the artists on the axes when
    the method ends, and how it ends. The trend line is fitted after the
    points are drawn, and drawn before the band. *)
Definition CalibrationPlot_update_plot (before : list artist)
           (velocity_patron errors : list float)
           (statistics : Statistics) : list artist * result unit :=
  match reset_axes before with
  | (done, Raise e) => (done, Raise e)
  | (done, Ok _) =>
      match draw_artists [ZeroLine; Scatter velocity_patron errors] done with
      | (done, Raise e) => (done, Raise e)
      | (done, Ok _) =>
          match trend_line velocity_patron errors with
          | Raise e => (done, Raise e)
          | Ok trend =>
              match draw_artists trend done with
              | (done, Raise e) => (done, Raise e)
              | (done, Ok _) =>
                  match
                    draw_artists
                      (uncertainty_band statistics
                         ++ [ StatsBox (mean_error statistics) (std_error statistics)
                                       (max_error statistics) (min_error statistics)
                                       (num_mul (PyInt 2) (std_error statistics));
                              Legend ])
                      done
                  with
                  | (done, Raise e) => (done, Raise e)
                  | (done, Ok _) => (done, canvas_draw done)
                  end
              end
          end
      end
  end.

(** The method as the handlers call it: for how it ends only, which does
    not depend on what the axes held. *)
Definition update_plot_with (velocity_patron errors : list float)
           (statistics : Statistics) : result unit :=
  snd (CalibrationPlot_update_plot [] velocity_patron errors statistics).

End Plotting.

(** A matplotlib whose calls all return. *)
Definition quiet_matplotlib (_ : artist) : result unit := Ok tt.

Definition quiet_canvas (_ : list artist) : result unit := Ok tt.

(** The plot drawn with a fit [np_polyfit] and a matplotlib that returns. *)
Definition plot_with (np_polyfit : list float -> list float -> result (float * float))
  : list float -> list float -> Statistics -> result unit :=
  update_plot_with (Ok tt) (Ok tt) np_polyfit quiet_matplotlib quiet_canvas.

(** The artist [a] is one [update_plot] is to draw for the points
    [xs], [ys] and the statistics [st]: the zero line, the points, the trend
    line of the fit when there is more than one point, the band when the
    standard deviation is greater than 0, the statistics box, the legend. *)
Definition called_for (np_polyfit : list float -> list float -> result (float * float))
           (xs ys : list float) (st : Statistics) (a : artist) : Prop :=
  match a with
  | ZeroLine | Legend => True
  | Scatter xs' ys' => xs' = xs /\ ys' = ys
  | TrendLine slope intercept x_from x_to =>
      (1 < len xs)%Z /\ np_polyfit xs ys = Ok (slope, intercept) /\
      py_min xs = Ok x_from /\ py_max xs = Ok x_to
  | BandLine _ | BandFill _ _ => num_pos (std_error st) = true
  | StatsBox mean std max_e min_e two_std =>
      mean = mean_error st /\ std = std_error st /\
      max_e = max_error st /\ min_e = min_error st /\
      two_std = num_mul (PyInt 2) (std_error st)
  end.

(** A selection a user can make: an index of an item of the combo box. *)
Definition selectable (c : ComboBox) (i : Z) : Prop :=
  (0 <= i < len (items c))%Z.

Definition user_event (ev : event) : Prop :=
  match ev with
  | Select c i => selectable c i
  | _ => True
  end.

(** No float of the list is nan. *)
Definition no_nan (l : list float) : bool := forallb (fun x => negb (is_nan x)) l.

(** A fit that fails, as [np.polyfit] does when its least-squares solver
    does not converge. *)
Definition failing_polyfit (_ _ : list float) : result (float * float) :=
  Raise (LinAlgError "SVD did not converge in Linear Least Squares").

(** ** Order of binary64 values *)

Ltac cmp_cases :=
  repeat match goal with
         | H : context [Z.compare ?a ?b] |- _ => destruct (Z.compare_spec a b); subst
         | |- context [Z.compare ?a ?b] => destruct (Z.compare_spec a b); subst
         | H : context [Pos.compare_cont Eq ?a ?b] |- _ =>
             change (Pos.compare_cont Eq a b) with (Pos.compare a b) in *;
             destruct (Pos.compare_spec a b); subst
         | |- context [Pos.compare_cont Eq ?a ?b] =>
             change (Pos.compare_cont Eq a b) with (Pos.compare a b) in *;
             destruct (Pos.compare_spec a b); subst
         end.

Lemma SFltb_SFleb_false x y : SFltb x y = true -> SFleb y x = false.
Proof.
  unfold SFltb, SFleb.
  destruct x as [sx | sx | | sx mx ex], y as [sy | sy | | sy my ey];
    try destruct sx; try destruct sy; cbn; try congruence;
    cmp_cases; cbn; try congruence; try lia.
Qed.

Lemma SFleb_SFltb_false x y : SFleb x y = true -> SFltb y x = false.
Proof.
  unfold SFltb, SFleb.
  destruct x as [sx | sx | | sx mx ex], y as [sy | sy | | sy my ey];
    try destruct sx; try destruct sy; cbn; try congruence;
    cmp_cases; cbn; try congruence; try lia.
Qed.

Lemma SFltb_trans x y z : SFltb x y = true -> SFltb y z = true -> SFltb x z = true.
Proof.
  unfold SFltb.
  destruct x as [sx | sx | | sx mx ex], y as [sy | sy | | sy my ey],
           z as [sz | sz | | sz mz ez];
    try destruct sx; try destruct sy; try destruct sz; cbn; try congruence;
    cmp_cases; cbn; try congruence; try lia.
Qed.

Lemma ltb_leb_false (x y : float) : (x <? y)%float = true -> (y <=? x)%float = false.
Proof. rewrite ltb_spec, leb_spec. apply SFltb_SFleb_false. Qed.

Lemma leb_ltb_false (x y : float) : (x <=? y)%float = true -> (y <? x)%float = false.
Proof. rewrite ltb_spec, leb_spec. apply SFleb_SFltb_false. Qed.

Lemma ltb_leb (x y : float) : (x <? y)%float = true -> (x <=? y)%float = true.
Proof.
  rewrite ltb_spec, leb_spec. unfold SFltb, SFleb.
  destruct (SFcompare (Prim2SF x) (Prim2SF y)) as [[ | | ] | ]; congruence.
Qed.

Lemma ltb_trans (x y z : float) :
  (x <? y)%float = true -> (y <? z)%float = true -> (x <? z)%float = true.
Proof. rewrite !ltb_spec. apply SFltb_trans. Qed.

(** Above a threshold [hi] means not below, and not at or below, any
    smaller threshold [lo]. *)
Lemma above_not_below (lo hi v : float) :
  (lo <? hi)%float = true -> (hi <? v)%float = true ->
  (v <? lo)%float = false /\ (v <=? lo)%float = false.
Proof.
  intros Hlo Hhi. assert (Hv : (lo <? v)%float = true) by (eapply ltb_trans; eauto).
  split; [ | now apply ltb_leb_false ].
  destruct (v <? lo)%float eqn:E; [ | reflexivity ].
  apply ltb_leb in E. apply ltb_leb_false in Hv. congruence.
Qed.

(** ** Theorems *)

(** C1 (as stated, refuted): a unit index outside the seven supported ones
    does not make the conversion fail; at flow 10 and index 7 it returns the
    default [0]. *)
Lemma C1_unknown_unit_returns_default_counterexample :
  ~ supported_unit 7 /\
  convert_flow_to_m3_per_s 10 7 = Ok (PyInt 0) /\
  ~ raises (convert_flow_to_m3_per_s 10 7).
Proof.
  split; [ unfold supported_unit; lia | split; [ reflexivity | ] ].
  intros [e He]. discriminate He.
Qed.

(** C1 (amended): for every flow value and every unit index outside
    [0..6], the conversion returns the default value, the integer [0], and
    raises nothing. *)
Theorem C1_unknown_unit_falls_back_to_zero :
  forall (flow_value : float) (unit_index : Z),
    ~ supported_unit unit_index ->
    convert_flow_to_m3_per_s flow_value unit_index = Ok (PyInt 0).
Proof.
  intros v u Hu. unfold convert_flow_to_m3_per_s, conversions. cbn [dict_get].
  unfold supported_unit in Hu.
  repeat match goal with
         | |- context [(?k =? u)%Z] =>
             destruct (Z.eqb_spec k u) as [E | _]; [ exfalso; lia | ]
         end.
  reflexivity.
Qed.

(** The amended C1 at flow 10 and the index -1 of an empty combo box. *)
Lemma C1_unknown_unit_falls_back_to_zero_witness :
  convert_flow_to_m3_per_s 10 (-1) = Ok (PyInt 0).
Proof.
  apply (C1_unknown_unit_falls_back_to_zero 10 (-1)).
  unfold supported_unit. lia.
Defined.

(** C5: the seven units are converted by their fixed factors, and both
    3600 m3/h and 1 m3/s convert to exactly 1.0 m3/s. *)
Theorem C5_conversion_factors :
  (forall v : float,
      convert_flow_to_m3_per_s v 0 = Ok (PyFloat (v / 3600)) /\
      convert_flow_to_m3_per_s v 1 = Ok (PyFloat (v / 3600000)) /\
      convert_flow_to_m3_per_s v 2 = Ok (PyFloat (v / 60000)) /\
      convert_flow_to_m3_per_s v 3 = Ok (PyFloat (v / 1000)) /\
      convert_flow_to_m3_per_s v 4 = Ok (PyFloat v) /\
      convert_flow_to_m3_per_s v 5 = Ok (PyFloat (v * 0.00006309)) /\
      convert_flow_to_m3_per_s v 6 = Ok (PyFloat (v * 0.00047194)))%float /\
  convert_flow_to_m3_per_s 3600 0 = Ok (PyFloat 1) /\
  convert_flow_to_m3_per_s 1 4 = Ok (PyFloat 1).
Proof.
  split; [ intros v; repeat split; reflexivity | split; reflexivity ].
Qed.

(** C7: the closed regime boundaries. A velocity in the range the
    specification gives a regime is classified into that regime; in
    particular 0.5 and 1.5 are OPTIMAL, 3.0 is ACCEPTABLE and 5.0 is HIGH. *)
Theorem C7_regime_boundaries :
  forall (v : float) (r : Regime), in_regime v r -> analyze_velocity v = regime_text r.
Proof.
  intros v r H. unfold analyze_velocity.
  destruct r; cbn [in_regime regime_text] in H |- *.
  - now rewrite H.
  - destruct H as [Hlo Hhi]. now rewrite (leb_ltb_false _ _ Hlo), Hhi.
  - destruct H as [Hlo Hhi].
    destruct (above_not_below 0.5 1.5 v eq_refl Hlo) as [-> _].
    now rewrite (ltb_leb_false _ _ Hlo), Hhi.
  - destruct H as [Hlo Hhi].
    destruct (above_not_below 0.5 3.0 v eq_refl Hlo) as [-> _].
    destruct (above_not_below 1.5 3.0 v eq_refl Hlo) as [_ ->].
    now rewrite (ltb_leb_false _ _ Hlo), Hhi.
  - destruct (above_not_below 0.5 5.0 v eq_refl H) as [-> _].
    destruct (above_not_below 1.5 5.0 v eq_refl H) as [_ ->].
    destruct (above_not_below 3.0 5.0 v eq_refl H) as [_ ->].
    now rewrite (ltb_leb_false _ _ H).
Qed.

(** C7 at the four boundaries and at one velocity on each outer side. *)
Lemma C7_regime_boundaries_witness :
  analyze_velocity 0.5 = regime_text OPTIMAL /\
  analyze_velocity 1.5 = regime_text OPTIMAL /\
  analyze_velocity 3.0 = regime_text ACCEPTABLE /\
  analyze_velocity 5.0 = regime_text HIGH /\
  analyze_velocity 0.49 = regime_text LOW /\
  analyze_velocity 5.01 = regime_text VERY_HIGH.
Proof.
  exact (conj (C7_regime_boundaries 0.5 OPTIMAL (conj eq_refl eq_refl))
        (conj (C7_regime_boundaries 1.5 OPTIMAL (conj eq_refl eq_refl))
        (conj (C7_regime_boundaries 3.0 ACCEPTABLE (conj eq_refl eq_refl))
        (conj (C7_regime_boundaries 5.0 HIGH (conj eq_refl eq_refl))
        (conj (C7_regime_boundaries 0.49 LOW eq_refl)
              (C7_regime_boundaries 5.01 VERY_HIGH eq_refl)))))).
Defined.

(** ** The calibration handlers *)

Section CalibrationFacts.

Variable libm_pow : float -> float -> float * bool.
Variable np_mean : list float -> float.
Variable np_std : list float -> float.
Variable update_plot : list float -> list float -> Statistics -> result unit.
Variable write_file : string -> Report -> result unit.

Local Abbreviation add_point :=
  (add_calibration_point libm_pow np_mean np_std update_plot).
Local Abbreviation refresh_plot := (update_calibration_plot np_mean np_std update_plot).
Local Abbreviation new_point' := (new_point libm_pow).
Local Abbreviation draw := (draw_of np_mean np_std update_plot).

Lemma update_calibration_table_eq w :
  update_calibration_table w = (Next tt, set_calib_table (calibration_data w) w).
Proof. reflexivity. Qed.

(** Refreshing the plot changes neither the data nor the dialogs, and ends
    normally or with the exception of [update_plot]. *)
Lemma update_calibration_plot_frame w :
  calibration_data (snd (refresh_plot w)) = calibration_data w /\
  dialogs (snd (refresh_plot w)) = dialogs w /\
  (fst (refresh_plot w) = Next tt \/
   exists xs ys st e, update_plot xs ys st = Raise e /\ fst (refresh_plot w) = Except e).
Proof.
  unfold update_calibration_plot, call, bind, read, when, lift, write, return_, ret.
  destruct (calibration_data w) as [ | p data] eqn:E; cbn.
  - rewrite E. auto.
  - match goal with
    | |- context [update_plot ?xs ?ys ?st] =>
        destruct (update_plot xs ys st) as [[] | e] eqn:U
    end; cbn.
    + rewrite E. auto.
    + rewrite E. repeat split; try reflexivity. right. eauto 6.
Qed.

(** What a click on "Agregar Punto" does to the calibration list. *)
Lemma add_calibration_point_data w :
  calibration_data (add_point w) =
  match new_point' w with
  | Some p => calibration_data w ++ [p]
  | None => calibration_data w
  end.
Proof.
  unfold add_calibration_point, new_point, rejected, reference_velocity, try_except.
  cbv [bind read when lift show write return_ ret clear_line].
  destruct (text w calib_diametro) as [ | | d], (text w calib_espesor) as [ | | e],
           (text w calib_caudal) as [ | | c], (text w calib_velocidad_equipo) as [ | | v];
    cbn; try reflexivity.
  destruct (d <=? 0)%float; cbn; [ reflexivity | ].
  destruct (e <? 0)%float; cbn; [ reflexivity | ].
  destruct (c <=? 0)%float; cbn; [ reflexivity | ].
  destruct (d / 2 <=? e)%float; cbn; [ reflexivity | ].
  destruct (py_pow2 libm_pow ((d - 2 * e) / 1000 / 2)) as [sq | ex]; cbn; [ | destruct ex; reflexivity ].
  match goal with
  | |- context [py_truediv ?a ?b] => destruct (py_truediv a b) as [vp | ex]
  end; cbn; [ | destruct ex; reflexivity ].
  match goal with
  | |- context [refresh_plot ?w1] =>
      destruct (update_calibration_plot_frame w1) as (Hd & _ & Hc);
      destruct (refresh_plot w1) as [r w2]
  end.
  cbn in Hd, Hc.
  destruct Hc as [-> | (xs & ys & st & ex & _ & ->)].
  - cbn. destruct (10 <=? _)%Z; cbn; exact Hd.
  - destruct ex; cbn; exact Hd.
Qed.


Lemma app_one_neq {A : Type} (l : list A) (a : A) : l ++ [a] <> l.
Proof.
  intros H. apply (f_equal (@List.length A)) in H.
  rewrite length_app in H. cbn in H. lia.
Qed.

(** A click that appends nothing only shows one dialog, which is not the
    advisory. *)
Lemma add_calibration_point_none w :
  new_point' w = None ->
  exists d, add_point w = set_dialogs (dialogs w ++ [d]) w /\ d <> advisory.
Proof.
  unfold add_calibration_point, new_point, rejected, reference_velocity, try_except.
  cbv [bind read when lift show write return_ ret clear_line].
  destruct (text w calib_diametro) as [ | | d], (text w calib_espesor) as [ | | e],
           (text w calib_caudal) as [ | | c], (text w calib_velocidad_equipo) as [ | | v];
    cbn; try (intros _; eexists; split; [ reflexivity | discriminate ]).
  destruct (d <=? 0)%float; cbn;
    [ intros _; eexists; split; [ reflexivity | discriminate ] | ].
  destruct (e <? 0)%float; cbn;
    [ intros _; eexists; split; [ reflexivity | discriminate ] | ].
  destruct (c <=? 0)%float; cbn;
    [ intros _; eexists; split; [ reflexivity | discriminate ] | ].
  destruct (d / 2 <=? e)%float; cbn;
    [ intros _; eexists; split; [ reflexivity | discriminate ] | ].
  destruct (py_pow2 libm_pow ((d - 2 * e) / 1000 / 2)) as [sq | ex]; cbn;
    [ | intros _; eexists; split; [ reflexivity | destruct ex; discriminate ] ].
  match goal with
  | |- context [py_truediv ?a ?b] => destruct (py_truediv a b) as [vp | ex]
  end; cbn; [ discriminate | ].
  intros _; eexists; split; [ reflexivity | destruct ex; discriminate ].
Qed.

(** Refreshing the plot of a non-empty list: the statistics are computed
    and handed to [update_plot]; when it returns, plot and text box show
    them; when it raises, the plot is left interrupted. *)
Lemma update_calibration_plot_nonempty w :
  calibration_data w <> [] ->
  let data := calibration_data w in
  exists st stx,
    describes np_mean np_std data st stx /\
    statistics_of np_mean np_std data = Ok st /\
    refresh_plot w
    = match draw data with
      | Ok _ =>
          (Next tt,
           set_stats_text (Some stx)
             (set_plot_widget
                (PlotShown (map velocidad_patron data) (map error data) st) w))
      | Raise e =>
          (Except e,
           set_plot_widget
             (PlotInterrupted (map velocidad_patron data) (map error data) st) w)
      end.
Proof.
  intros Hne data. subst data.
  unfold update_calibration_plot, draw_of, statistics_of,
    call, bind, read, when, lift, write, return_, ret.
  destruct (calibration_data w) as [ | p data] eqn:E; [ congruence | ]. cbn.
  eexists (mkStatistics _ _ _ _), (mkStatsText _ _ _ _ _ _ _ _). split.
  - unfold describes. cbn. repeat split.
  - split; [ reflexivity | ].
    match goal with
    | |- context [update_plot ?xs ?ys ?st] =>
        destruct (update_plot xs ys st) as [[] | e]
    end; reflexivity.
Qed.

(** A click that appends a point, in full: the list and the table get the
    point; then the plot is refreshed; if drawing raises, the plot is left
    interrupted and the error dialog is all that follows; otherwise plot and
    text box show the new statistics, flow and reading are emptied, and the
    advisory is shown from ten points on. *)
Lemma add_calibration_point_appends w p :
  new_point' w = Some p ->
  let data := calibration_data w ++ [p] in
  let w2 := set_calib_table data (set_calibration_data data w) in
  exists st stx,
    describes np_mean np_std data st stx /\
    statistics_of np_mean np_std data = Ok st /\
    add_point w
    = match draw data with
      | Raise e =>
          set_dialogs (dialogs w ++ [numeric_handlers e])
            (set_plot_widget
               (PlotInterrupted (map velocidad_patron data) (map error data) st) w2)
      | Ok _ =>
          let w4 :=
            set_stats_text (Some stx)
              (set_plot_widget
                 (PlotShown (map velocidad_patron data) (map error data) st) w2) in
          if (10 <=? len data)%Z
          then set_dialogs (dialogs w ++ [advisory]) (emptied w4)
          else emptied w4
      end.
Proof.
  intros Hp data w2.
  destruct (update_calibration_plot_nonempty w2) as (st & stx & Hd & Hs & Hr).
  { subst w2 data. cbn. intros H. apply app_eq_nil in H. destruct H; discriminate. }
  exists st, stx. split; [ exact Hd | split; [ exact Hs | ] ].
  revert Hp.
  unfold add_calibration_point, new_point, rejected, reference_velocity, try_except.
  cbv [bind read when lift show write return_ ret].
  destruct (text w calib_diametro) as [ | | d], (text w calib_espesor) as [ | | e],
           (text w calib_caudal) as [ | | c], (text w calib_velocidad_equipo) as [ | | v];
    cbn; try discriminate.
  destruct (d <=? 0)%float; cbn; [ discriminate | ].
  destruct (e <? 0)%float; cbn; [ discriminate | ].
  destruct (c <=? 0)%float; cbn; [ discriminate | ].
  destruct (d / 2 <=? e)%float; cbn; [ discriminate | ].
  destruct (py_pow2 libm_pow ((d - 2 * e) / 1000 / 2)) as [sq | ex]; cbn; [ | discriminate ].
  match goal with
  | |- context [py_truediv ?a ?b] => destruct (py_truediv a b) as [vp | ex]
  end; cbn; [ | discriminate ].
  intros [= <-]. fold data. fold w2. rewrite Hr.
  change (calibration_data w2) with data.
  destruct (draw data) as [[] | ex]; [ | reflexivity ].
  cbn. destruct (10 <=? len data)%Z; reflexivity.
Qed.

Lemma new_point_punto w p :
  new_point' w = Some p -> punto p = (len (calibration_data w) + 1)%Z.
Proof.
  unfold new_point.
  destruct (text w calib_diametro), (text w calib_espesor),
           (text w calib_caudal), (text w calib_velocidad_equipo); try discriminate.
  destruct (rejected _ _ _); [ discriminate | ].
  destruct (reference_velocity _ _ _ _ _); [ | discriminate ].
  intros [= <-]. reflexivity.
Qed.


Lemma add_calibration_point_changed w :
  calibration_data (add_point w) <> calibration_data w <-> new_point' w <> None.
Proof.
  rewrite add_calibration_point_data.
  destruct (new_point' w) as [p | ].
  - split; [ congruence | intros _; apply app_one_neq ].
  - split; congruence.
Qed.

Lemma fails_validation_new_point w : fails_validation w = true -> new_point' w = None.
Proof.
  unfold fails_validation, new_point, rejected. cbn [map existsb].
  destruct (text w calib_diametro) as [ | | d], (text w calib_espesor) as [ | | e],
           (text w calib_caudal) as [ | | c], (text w calib_velocidad_equipo) as [ | | v];
    cbn; try reflexivity.
  destruct (c <=? 0)%float, (d <=? 0)%float, (e <? 0)%float, (d / 2 <=? e)%float;
    cbn; try reflexivity; discriminate.
Qed.

(** The inputs from which a click appends a point: the four fields hold
    numbers that pass the validations, the square of the inner radius is
    computed and the area is not zero. *)
Lemma new_point_computed w d e c v sq :
  text w calib_diametro = Numeric d ->
  text w calib_espesor = Numeric e ->
  text w calib_caudal = Numeric c ->
  text w calib_velocidad_equipo = Numeric v ->
  rejected d e c = false ->
  py_pow2 libm_pow ((d - 2 * e) / 1000 / 2) = Ok sq ->
  (math_pi * sq =? 0)%float = false ->
  let q := dict_get (conversions c) (currentIndex w calib_caudal_units) (PyInt 0) in
  let vp := (float_of_num q / (math_pi * sq))%float in
  new_point' w = Some (mkPoint (len (calibration_data w) + 1) vp v (v - vp)%float).
Proof.
  intros Hd He Hc Hv Hr Hsq Ha q vp. subst q vp.
  unfold new_point, reference_velocity, convert_flow_to_m3_per_s, py_truediv.
  rewrite Hd, He, Hc, Hv, Hr, Hsq, Ha. reflexivity.
Qed.

Lemma new_point_inputs_valid w p :
  new_point' w = Some p ->
  exists d e c v sq : float,
    text w calib_diametro = Numeric d /\
    text w calib_espesor = Numeric e /\
    text w calib_caudal = Numeric c /\
    text w calib_velocidad_equipo = Numeric v /\
    rejected d e c = false /\
    py_pow2 libm_pow ((d - 2 * e) / 1000 / 2) = Ok sq /\
    (math_pi * sq =? 0)%float = false.
Proof.
  unfold new_point, reference_velocity, convert_flow_to_m3_per_s, py_truediv.
  destruct (text w calib_diametro) as [ | | d], (text w calib_espesor) as [ | | e],
           (text w calib_caudal) as [ | | c], (text w calib_velocidad_equipo) as [ | | v];
    try discriminate.
  destruct (rejected d e c) eqn:Hr; [ discriminate | ].
  destruct (py_pow2 libm_pow ((d - 2 * e) / 1000 / 2)) as [sq | ex] eqn:Hsq;
    [ | discriminate ].
  destruct (math_pi * sq =? 0)%float eqn:Ha; [ discriminate | ].
  intros _. exists d, e, c, v, sq. repeat (split; [ reflexivity | ]).
  split; [ exact Hr | split; [ exact Hsq | exact Ha ] ].
Qed.


(** C4: a click on inputs that pass the validations and whose computation
    raises nothing, on a window holding n points, appends exactly one point
    at the end, with index n + 1, the instrument reading, the reference
    velocity computed from the flow, its unit and the pipe geometry (the
    converted flow over pi times the square of the inner radius in metres,
    the square as Python's [** 2] returns it), and their difference as
    error; and a click changes the list on such inputs only. *)
Theorem C4_appended_point :
  forall w : Window,
    let data := calibration_data w in
    let data' := calibration_data (add_point w) in
    (forall d e c v sq : float,
        text w calib_diametro = Numeric d ->
        text w calib_espesor = Numeric e ->
        text w calib_caudal = Numeric c ->
        text w calib_velocidad_equipo = Numeric v ->
        ((d <=? 0) || (e <? 0) || (c <=? 0) || (d / 2 <=? e))%float = false ->
        py_pow2 libm_pow ((d - 2 * e) / 1000 / 2) = Ok sq ->
        (math_pi * sq =? 0)%float = false ->
        let q := dict_get (conversions c) (currentIndex w calib_caudal_units) (PyInt 0) in
        let vp := (float_of_num q / (math_pi * sq))%float in
        data' = data ++ [mkPoint (len data + 1) vp v (v - vp)%float]) /\
    (data' <> data ->
     exists d e c v sq : float,
       text w calib_diametro = Numeric d /\
       text w calib_espesor = Numeric e /\
       text w calib_caudal = Numeric c /\
       text w calib_velocidad_equipo = Numeric v /\
       ((d <=? 0) || (e <? 0) || (c <=? 0) || (d / 2 <=? e))%float = false /\
       py_pow2 libm_pow ((d - 2 * e) / 1000 / 2) = Ok sq /\
       (math_pi * sq =? 0)%float = false /\
       let q := dict_get (conversions c) (currentIndex w calib_caudal_units) (PyInt 0) in
       let vp := (float_of_num q / (math_pi * sq))%float in
       data' = data ++ [mkPoint (len data + 1) vp v (v - vp)%float]).
Proof.
  intros w data data'. subst data data'. split.
  - intros d e c v sq Hd He Hc Hv Hr Hsq Ha q vp.
    rewrite add_calibration_point_data.
    rewrite (new_point_computed w d e c v sq Hd He Hc Hv Hr Hsq Ha). reflexivity.
  - intros Hchg. apply add_calibration_point_changed in Hchg.
    destruct (new_point' w) as [p | ] eqn:Hp; [ | congruence ].
    destruct (new_point_inputs_valid w p Hp)
      as (d & e & c & v & sq & Hd & He & Hc & Hv & Hr & Hsq & Ha).
    exists d, e, c, v, sq.
    repeat (split; [ assumption | ]).
    intros q vp.
    rewrite add_calibration_point_data.
    rewrite (new_point_computed w d e c v sq Hd He Hc Hv Hr Hsq Ha). reflexivity.
Qed.

(** C10: when a validation rejects the input, the click only shows one
    dialog: the calibration list, and with it the count, the table, the plot
    and the statistics, are left as they were. *)
Theorem C10_rejected_input_leaves_session :
  forall w : Window,
    fails_validation w = true ->
    calibration_data (add_point w) = calibration_data w /\
    len (calibration_data (add_point w)) = len (calibration_data w) /\
    exists d, add_point w = set_dialogs (dialogs w ++ [d]) w /\ d <> advisory.
Proof.
  intros w H. apply fails_validation_new_point in H.
  destruct (add_calibration_point_none w H) as (d & Hd & Hn).
  rewrite Hd. cbn. repeat split. exists d. split; [ reflexivity | exact Hn ].
Qed.

(** *** Handlers that never touch the calibration list *)

Lemma keeps_ret {A : Type} (a : A) : keeps_data (ret a).
Proof. intros w. reflexivity. Qed.

Lemma keeps_return {A : Type} : keeps_data (@return_ A).
Proof. intros w. reflexivity. Qed.

Lemma keeps_lift {A : Type} (r : result A) : keeps_data (lift r).
Proof. intros w. destruct r; reflexivity. Qed.

Lemma keeps_read {A : Type} (f : Window -> A) : keeps_data (read f).
Proof. intros w. reflexivity. Qed.

Lemma keeps_write (f : Window -> Window) :
  (forall w, calibration_data (f w) = calibration_data w) -> keeps_data (write f).
Proof. intros H w. apply H. Qed.

Lemma keeps_show (d : dialog) : keeps_data (show d).
Proof. intros w. reflexivity. Qed.

Lemma keeps_clear_line (l : LineEdit) : keeps_data (clear_line l).
Proof. intros w. reflexivity. Qed.

Lemma keeps_setCurrentIndex (c : ComboBox) (i : Z) : keeps_data (setCurrentIndex c i).
Proof. intros w. reflexivity. Qed.

Lemma keeps_currentText (c : ComboBox) : keeps_data (currentText c).
Proof. intros w. reflexivity. Qed.

Lemma keeps_bind {A B : Type} (m : M A) (k : A -> M B) :
  keeps_data m -> (forall a, keeps_data (k a)) -> keeps_data (bind m k).
Proof.
  intros Hm Hk w. unfold bind. specialize (Hm w).
  destruct (m w) as [[a | | e] w']; cbn in *; [ | exact Hm | exact Hm ].
  now rewrite Hk.
Qed.

Lemma keeps_when (b : bool) (m : M unit) : keeps_data m -> keeps_data (when b m).
Proof. intros H. destruct b; [ exact H | apply keeps_ret ]. Qed.

Lemma keeps_try_except (body : M unit) (h : exn -> dialog) :
  keeps_data body -> forall w, calibration_data (try_except body h w) = calibration_data w.
Proof.
  intros H w. unfold try_except. specialize (H w).
  destruct (body w) as [[a | | e] w']; exact H.
Qed.

Lemma keeps_method (body : M unit) :
  keeps_data body -> forall w, calibration_data (method body w) = calibration_data w.
Proof. intros H w. apply H. Qed.

Create HintDb keeps.
#[local] Hint Resolve keeps_ret keeps_return keeps_lift keeps_read keeps_show
  keeps_clear_line keeps_setCurrentIndex keeps_currentText keeps_when : keeps.

Ltac keeps :=
  repeat first
    [ progress intros
    | progress cbv zeta
    | apply keeps_bind
    | solve [ auto with keeps ]
    | apply keeps_when
    | apply keeps_write; intros; reflexivity ].

Lemma calculate_velocity_data w :
  calibration_data (calculate_velocity libm_pow w) = calibration_data w.
Proof. unfold calculate_velocity. apply keeps_try_except. keeps. Qed.

Lemma clear_fields_data w : calibration_data (clear_fields w) = calibration_data w.
Proof. unfold clear_fields. apply keeps_method. keeps. Qed.

Lemma export_results_data w :
  calibration_data (export_results np_mean np_std write_file w) = calibration_data w.
Proof.
  unfold export_results. destruct (is_empty (calibration_data w)); [ reflexivity | ].
  apply keeps_try_except. keeps.
Qed.

Lemma clear_calibration_data reply_yes w :
  calibration_data (clear_calibration reply_yes w)
  = if reply_yes then [] else calibration_data w.
Proof. destruct reply_yes; reflexivity. Qed.

Lemma well_numbered_app data p :
  well_numbered data -> punto p = (len data + 1)%Z -> well_numbered (data ++ [p]).
Proof.
  unfold well_numbered, len. intros Hd Hp.
  rewrite map_app, length_app, Hd. cbn [List.length map].
  rewrite Nat.add_1_r, seq_S, map_app. cbn [map].
  rewrite Hp. do 2 f_equal. lia.
Qed.

Local Abbreviation step' := (step libm_pow np_mean np_std update_plot write_file).
Local Abbreviation run' := (run libm_pow np_mean np_std update_plot write_file).

Lemma step_well_numbered w ev :
  well_numbered (calibration_data w) -> well_numbered (calibration_data (step' w ev)).
Proof.
  intros H. destruct ev; cbn [step].
  - exact H.
  - exact H.
  - now rewrite calculate_velocity_data.
  - now rewrite clear_fields_data.
  - rewrite add_calibration_point_data.
    destruct (new_point' w) as [p | ] eqn:Hp; [ | exact H ].
    apply well_numbered_app; [ exact H | now apply new_point_punto ].
  - rewrite clear_calibration_data. destruct reply_yes; [ reflexivity | exact H ].
  - now rewrite export_results_data.
Qed.

Lemma run_well_numbered evs :
  forall w, well_numbered (calibration_data w) ->
            well_numbered (calibration_data (run' evs w)).
Proof.
  induction evs as [ | ev evs IH]; intros w H; cbn [run fold_left].
  - exact H.
  - apply IH, step_well_numbered, H.
Qed.

Lemma well_numbered_NoDup data : well_numbered data -> NoDup (map punto data).
Proof.
  unfold well_numbered. intros ->.
  apply Injective_map_NoDup; [ | apply seq_NoDup ].
  intros a b. apply Nat2Z.inj.
Qed.

(** C2 (amended): through every sequence of user actions on a new window,
    the points currently held carry the indexes 1, 2, ..., n in insertion
    order: each index is 1-based, is assigned at insertion as the count plus
    one, and no two points held at the same time share an index. (After a
    clear the numbering starts again at 1.) *)
Theorem C2_indexes_of_current_points :
  forall evs : list event,
    let data := calibration_data (run' evs initial_window) in
    map punto data = map Z.of_nat (seq 1 (List.length data)) /\
    NoDup (map punto data).
Proof.
  intros evs data.
  assert (H : well_numbered data) by (apply run_well_numbered; reflexivity).
  split; [ exact H | now apply well_numbered_NoDup ].
Qed.

(** C8: statistics at small counts. With no point, refreshing the plot only
    clears it and exporting only warns: no statistics are produced. With
    exactly one point, the standard deviation is the integer 0 (a number, not
    nan) and so is the expanded uncertainty 2 * std_error, both in the
    statistics shown and in the exported report. *)
Theorem C8_statistics_at_small_counts :
  forall (w : Window) (p : CalibrationPoint),
    let w0 := set_calibration_data [] w in
    let w1 := set_calibration_data [p] w in
    let vp := velocidad_patron p in
    let err := error p in
    let statistics := mkStatistics (np_mean [err]) (PyInt 0) err err in
    (* no point *)
    refresh_plot w0 = (Next tt, set_plot_widget PlotCleared w0) /\
    export_results np_mean np_std write_file w0
    = set_dialogs (dialogs w ++ [Warning "Error" "No hay datos de calibración para exportar."])
                  w0 /\
    (* one point *)
    std_of np_std [err] = PyInt 0 /\
    num_mul (PyInt 2) (std_of np_std [err]) = PyInt 0 /\
    is_nan (float_of_num (std_of np_std [err])) = false /\
    match update_plot [vp] [err] statistics with
    | Ok _ =>
        refresh_plot w1
        = (Next tt,
           set_stats_text
             (Some (mkStatsText 1 (np_mean [err]) (PyInt 0) err err (PyInt 0) vp vp))
             (set_plot_widget (PlotShown [vp] [err] statistics) w1))
    | Raise e =>
        refresh_plot w1
        = (Except e, set_plot_widget (PlotInterrupted [vp] [err] statistics) w1)
    end /\
    match text w calib_diametro, text w calib_espesor with
    | Numeric d, Numeric e =>
        let report :=
          mkReport (Numeric d) (Numeric e) (d - 2 * e)%float [p]
                   (np_mean [err]) (PyInt 0) err err (PyInt 0) in
        match write_file (filename 1) report with
        | Ok _ =>
            files (export_results np_mean np_std write_file w1)
            = files w ++ [(filename 1, report)]
        | Raise e =>
            export_results np_mean np_std write_file w1
            = set_dialogs (dialogs w ++ [CriticalExn "Error" "Error al exportar: " e]) w1
        end
    | _, _ =>
        export_results np_mean np_std write_file w1
        = set_dialogs (dialogs w ++ [CriticalExn "Error" "Error al exportar: " ValueError]) w1
    end.
Proof.
  intros w p w0 w1 vp err statistics.
  split; [ reflexivity | ].
  split; [ reflexivity | ].
  split; [ reflexivity | ].
  split; [ reflexivity | ].
  split; [ reflexivity | ].
  split.
  - unfold update_calibration_plot, call, bind, read, when, lift, write, return_, ret.
    cbn. fold vp err statistics.
    destruct (update_plot [vp] [err] statistics) as [[] | e]; reflexivity.
  - unfold export_results, try_except, bind, read, lift, write, show.
    cbn. fold err.
    destruct (text w calib_diametro) as [ | | d]; cbn; try reflexivity;
      destruct (text w calib_espesor) as [ | | e]; cbn; try reflexivity.
    destruct (write_file _ _) as [[] | ex]; reflexivity.
Qed.

End CalibrationFacts.

(** ** The calculator tab *)

(** [x ** 2] raises nothing but OverflowError. *)
Lemma py_pow2_raises libm_pow x ex :
  py_pow2 libm_pow x = Raise ex -> ex = OverflowError.
Proof.
  unfold py_pow2.
  destruct (is_nan x); [ discriminate | ].
  destruct (is_infinity x); [ discriminate | ].
  destruct (x =? 0)%float; [ discriminate | ].
  cbv zeta. destruct (abs x =? 1)%float; [ discriminate | ].
  destruct (libm_pow (abs x) 2%float) as [ix erange].
  destruct (if erange then negb (ix =? 0)%float else is_infinity ix);
    [ intros [= <-]; reflexivity | discriminate ].
Qed.

Lemma supported_cases (u : Z) :
  supported u = true -> In u [0; 1; 2; 3; 4; 5; 6]%Z.
Proof. unfold supported. cbn. lia. Qed.

Lemma supported_unit_cases (u : Z) :
  supported_unit u -> In u [0; 1; 2; 3; 4; 5; 6]%Z.
Proof. unfold supported_unit. cbn. lia. Qed.

(** The combo box of the calculator shows no text at an index outside its
    seven items. *)
Lemma caudal_units_no_text (u : Z) :
  supported u = false ->
  (if (u <? 0)%Z then EmptyString
   else nth (Z.to_nat u) (items caudal_units) EmptyString) = EmptyString.
Proof.
  unfold supported. intros Hu.
  destruct (u <? 0)%Z eqn:Hneg; [ reflexivity | ].
  apply Z.ltb_ge in Hneg. apply nth_overflow. cbn. lia.
Qed.

(** The results the calculator shows on inputs that pass the checks, when
    the square of the inner radius is computed, the area is not zero and one
    of the seven units is selected. *)
Lemma calculate_velocity_computes libm_pow (w0 : Window) (c d e sq : float) (u : Z) :
  (c <=? 0)%float = false ->
  (d <=? 0)%float = false ->
  (e <? 0)%float = false ->
  (d / 2 <=? e)%float = false ->
  py_pow2 libm_pow ((d - 2 * e) / 1000 / 2) = Ok sq ->
  (math_pi * sq =? 0)%float = false ->
  supported u = true ->
  let w := with_calculator_inputs (Numeric c) (Numeric d) (Numeric e) u w0 in
  let q := dict_get (conversions c) u (PyInt 0) in
  let velocidad := (float_of_num q / (math_pi * sq))%float in
  exists unit_text : string,
    calculate_velocity libm_pow w
    = set_results_text
        (Some (mkResults c unit_text d e (d - 2 * e) ((d - 2 * e) / 1000)
                         (math_pi * sq) q velocidad (analyze_velocity velocidad))) w.
Proof.
  intros Hc Hd He Hw Hsq Ha Hu w q velocidad.
  subst velocidad q w. unfold math_pi in *. unfold calculate_velocity, try_except.
  cbv [bind read when lift show write return_ ret currentText with_calculator_inputs].
  cbn. rewrite Hc, Hd, He. cbn. rewrite Hw. cbn. rewrite Hsq. cbn.
  unfold py_truediv. rewrite Ha. cbn.
  apply supported_cases in Hu. cbn in Hu.
  repeat (destruct Hu as [<- | Hu]; [ cbn; eexists; reflexivity | ]).
  destruct Hu.
Qed.

(** C9 (as stated, refuted): for the worked example the velocity computed
    is not within 0.00005 of 0.3381 m/s. *)
Lemma C9_velocity_is_not_0_3381_counterexample :
  exists res : Results,
    results_text (calculate_velocity rounded_pow example_1) = Some res /\
    approx (r_velocidad res) 0.3381 0.00005 = false /\
    (0.3382 <? r_velocidad res)%float = true.
Proof. eexists. split; [ vm_compute; reflexivity | split; reflexivity ]. Qed.

(** C9 (amended): for outer diameter 114.3 mm, wall thickness 6.02 mm and
    10 m3/h the calculator shows inner diameter 102.26 mm, flow area
    0.008213 m2, converted flow 0.002778 m3/s, velocity 0.3382 m/s and the
    LOW regime, each to the digits given; no dialog is shown. This holds
    with every C library whose [pow] is within one unit in the last place at
    the inner radius. *)
Theorem C9_worked_example :
  forall libm_pow : float -> float -> float * bool,
    pow_within_one_ulp libm_pow example_1_radius ->
    exists res : Results,
      results_text (calculate_velocity libm_pow example_1) = Some res /\
      approx (r_diametro_interior_mm res) 102.26 0.00005 = true /\
      approx (r_area_m2 res) 0.008213 0.0000005 = true /\
      approx (float_of_num (r_caudal_m3_s res)) 0.002778 0.0000005 = true /\
      approx (r_velocidad res) 0.3382 0.00005 = true /\
      r_analisis res = regime_text LOW /\
      dialogs (calculate_velocity libm_pow example_1) = [].
Proof.
  intros libm_pow (y & Hpow & Hy).
  assert (Hsq : py_pow2 libm_pow ((114.3 - 2 * 6.02) / 1000 / 2) = Ok y).
  { unfold py_pow2.
    change (is_nan ((114.3 - 2 * 6.02) / 1000 / 2)) with false.
    change (is_infinity ((114.3 - 2 * 6.02) / 1000 / 2)) with false.
    change ((114.3 - 2 * 6.02) / 1000 / 2 =? 0)%float with false.
    cbv iota zeta.
    change (abs ((114.3 - 2 * 6.02) / 1000 / 2) =? 1)%float with false.
    cbv iota.
    change (abs ((114.3 - 2 * 6.02) / 1000 / 2)) with example_1_radius.
    rewrite Hpow.
    destruct Hy as [-> | [-> | ->]]; reflexivity. }
  assert (Ha : (math_pi * y =? 0)%float = false).
  { destruct Hy as [-> | [-> | ->]]; reflexivity. }
  destruct (calculate_velocity_computes libm_pow initial_window 10 114.3 6.02 y 0
              eq_refl eq_refl eq_refl eq_refl Hsq Ha eq_refl) as (unit_text & Hres).
  unfold example_1. cbv zeta in Hres. rewrite Hres.
  eexists. split; [ reflexivity | ].
  cbn [r_diametro_interior_mm r_area_m2 r_caudal_m3_s r_velocidad r_analisis
       dialogs set_results_text].
  destruct Hy as [-> | [-> | ->]];
    (split; [ reflexivity | ]); (split; [ reflexivity | ]);
    (split; [ reflexivity | ]); (split; [ reflexivity | ]);
    (split; reflexivity).
Qed.

(** C6 (as stated, refuted): an outer diameter of 1e200 mm with no wall
    passes the three geometry checks, yet no inner diameter or area is
    produced: squaring the radius overflows and the handler reports the
    error. *)
Lemma C6_valid_geometry_without_area_counterexample :
  (1e200 <=? 0)%float = false /\ (0 <? 0)%float = false /\
  (1e200 / 2 <=? 0)%float = false /\
  results_text (calculate_velocity rounded_pow example_huge) = None /\
  dialogs (calculate_velocity rounded_pow example_huge)
  = [CriticalExn "Error" "Error: " OverflowError].
Proof.
  split; [ reflexivity | ]. split; [ reflexivity | ]. split; [ reflexivity | ].
  split; vm_compute; reflexivity.
Qed.

(** The checks and formulas of the calculator tab. *)
Lemma calculate_velocity_geometry :
  forall (libm_pow : float -> float -> float * bool)
         (w0 : Window) (c d e : float) (unit_index : Z),
    let w := with_calculator_inputs (Numeric c) (Numeric d) (Numeric e) unit_index w0 in
    let w' := calculate_velocity libm_pow w in
    if (c <=? 0)%float then
      w' = set_dialogs (dialogs w ++ [Warning "Error" "Valores inválidos."]) w
    else
      match geometry_of libm_pow d e with
      | InvalidValues =>
          w' = set_dialogs (dialogs w ++ [Warning "Error" "Valores inválidos."]) w
      | WallTooThick =>
          w' = set_dialogs (dialogs w ++ [Warning "Error" "El espesor es demasiado grande."]) w
      | ArithmeticError ex =>
          w' = set_dialogs (dialogs w ++ [CriticalExn "Error" "Error: " ex]) w
      | Geometry inner area =>
          if supported unit_index then
            exists res : Results,
              results_text w' = Some res /\
              r_diametro_interior_mm res = inner /\
              r_area_m2 res = area /\
              dialogs w' = dialogs w
          else
            w' = set_dialogs (dialogs w ++ [CriticalExn "Error" "Error: " IndexError]) w
      end.
Proof.
  intros libm_pow w0 c d e u w w'.
  unfold geometry_of. cbv zeta. unfold math_pi.
  destruct (c <=? 0)%float eqn:Hc;
    [ | destruct (d <=? 0)%float eqn:Hd;
        [ | destruct (e <? 0)%float eqn:He;
            [ | destruct (d / 2 <=? e)%float eqn:Hw;
                [ | destruct (py_pow2 libm_pow ((d - 2 * e) / 1000 / 2))
                      as [sq | ex] eqn:Hsq;
                    [ destruct (_ =? 0)%float eqn:Ha;
                      [ | destruct (supported u) eqn:Hu ] | ] ] ] ] ];
    cbn [orb].
  6: { destruct (calculate_velocity_computes libm_pow w0 c d e sq u Hc Hd He Hw Hsq Ha Hu)
         as (unit_text & Hres).
       subst w'. fold w in Hres. rewrite Hres. eexists.
       split; [ reflexivity | ]. split; [ reflexivity | ]. split; reflexivity. }
  all: try (apply py_pow2_raises in Hsq as Hex; subst ex).
  all: subst w' w; unfold calculate_velocity, try_except;
    cbv [bind read when lift show write return_ ret currentText with_calculator_inputs];
    cbn; rewrite ?Hc, ?Hd, ?He; cbn; rewrite ?Hw; cbn; rewrite ?Hsq; cbn;
    try reflexivity.
  all: unfold py_truediv; rewrite Ha; cbn; try reflexivity.
  pose proof (caudal_units_no_text u Hu) as Htext. cbn in Htext.
  unfold supported in Hu.
  repeat match goal with
         | |- context [(?k =? u)%Z] =>
             destruct (Z.eqb_spec k u) as [E | _]; [ exfalso; lia | ]
         end.
  rewrite Htext. reflexivity.
Qed.

(** The checks and formulas of the calibration tab. *)
Lemma add_calibration_point_geometry :
  forall (libm_pow : float -> float -> float * bool)
         (np_mean np_std : list float -> float)
         (update_plot : list float -> list float -> Statistics -> result unit)
         (w0 : Window) (c d e v : float) (unit_index : Z),
    let w := with_calibration_inputs (Numeric d) (Numeric e) (Numeric c) (Numeric v)
                                     unit_index w0 in
    let w' := add_calibration_point libm_pow np_mean np_std update_plot w in
    if (c <=? 0)%float then
      w' = set_dialogs (dialogs w ++ [Warning "Error" "Valores inválidos."]) w
    else
      match geometry_of libm_pow d e with
      | InvalidValues =>
          w' = set_dialogs (dialogs w ++ [Warning "Error" "Valores inválidos."]) w
      | WallTooThick =>
          w' = set_dialogs (dialogs w ++ [Warning "Error" "Espesor demasiado grande."]) w
      | ArithmeticError ex =>
          w' = set_dialogs (dialogs w ++ [CriticalExn "Error" "Error: " ex]) w
      | Geometry inner area =>
          let q := float_of_num (dict_get (conversions c) unit_index (PyInt 0)) in
          let vp := (q / area)%float in
          calibration_data w'
          = calibration_data w ++ [mkPoint (len (calibration_data w) + 1) vp v (v - vp)%float]
      end.
Proof.
  intros libm_pow np_mean np_std update_plot w0 c d e v u w w'.
  unfold geometry_of. cbv zeta. unfold math_pi.
  destruct (c <=? 0)%float eqn:Hc;
    [ | destruct (d <=? 0)%float eqn:Hd;
        [ | destruct (e <? 0)%float eqn:He;
            [ | destruct (d / 2 <=? e)%float eqn:Hw;
                [ | destruct (py_pow2 libm_pow ((d - 2 * e) / 1000 / 2))
                      as [sq | ex] eqn:Hsq;
                    [ destruct (_ =? 0)%float eqn:Ha | ] ] ] ] ];
    cbn [orb].
  6: { cbv zeta. subst w'. rewrite add_calibration_point_data.
       unfold new_point, rejected, reference_velocity, convert_flow_to_m3_per_s.
       subst w. cbn. rewrite Hd, He, Hc, Hw. cbn. rewrite Hsq.
       unfold py_truediv. rewrite Ha. reflexivity. }
  all: try (apply py_pow2_raises in Hsq as Hex; subst ex).
  all: subst w' w; unfold add_calibration_point, try_except;
    cbv [bind read when lift show write return_ ret with_calibration_inputs];
    cbn; rewrite ?Hd, ?He, ?Hc, ?orb_true_r; cbn; rewrite ?Hw; cbn; rewrite ?Hsq; cbn;
    try reflexivity.
  unfold py_truediv. rewrite Ha. reflexivity.
Qed.

(** C6 (amended): in both handlers a flow <= 0, an outer diameter <= 0 or
    a wall thickness < 0 is rejected with the warning of invalid values, and
    a wall thickness >= half the outer diameter with the warning of a wall
    too thick. Every other input has the inner diameter outer - 2 * wall and
    the area pi * ((inner / 1000) / 2) ** 2, the square being what Python's
    [**] returns; when that square overflows or the area is zero the handler
    reports the arithmetic error and shows or appends nothing. Otherwise the
    calculator shows the inner diameter and the area when one of the seven
    units is selected, and reports an IndexError when none is; and the
    calibration tab appends the point whose reference velocity is the
    converted flow divided by that area. *)
Theorem C6_geometry_checks_and_formulas :
  forall (libm_pow : float -> float -> float * bool)
         (np_mean np_std : list float -> float)
         (update_plot : list float -> list float -> Statistics -> result unit)
         (w0 : Window) (c d e v : float) (unit_index : Z),
    (let w := with_calculator_inputs (Numeric c) (Numeric d) (Numeric e) unit_index w0 in
     let w' := calculate_velocity libm_pow w in
     if (c <=? 0)%float then
       w' = set_dialogs (dialogs w ++ [Warning "Error" "Valores inválidos."]) w
     else
       match geometry_of libm_pow d e with
       | InvalidValues =>
           w' = set_dialogs (dialogs w ++ [Warning "Error" "Valores inválidos."]) w
       | WallTooThick =>
           w' = set_dialogs (dialogs w ++ [Warning "Error" "El espesor es demasiado grande."]) w
       | ArithmeticError ex =>
           w' = set_dialogs (dialogs w ++ [CriticalExn "Error" "Error: " ex]) w
       | Geometry inner area =>
           if supported unit_index then
             exists res : Results,
               results_text w' = Some res /\
               r_diametro_interior_mm res = inner /\
               r_area_m2 res = area /\
               dialogs w' = dialogs w
           else
             w' = set_dialogs (dialogs w ++ [CriticalExn "Error" "Error: " IndexError]) w
       end) /\
    (let w := with_calibration_inputs (Numeric d) (Numeric e) (Numeric c) (Numeric v)
                                      unit_index w0 in
     let w' := add_calibration_point libm_pow np_mean np_std update_plot w in
     if (c <=? 0)%float then
       w' = set_dialogs (dialogs w ++ [Warning "Error" "Valores inválidos."]) w
     else
       match geometry_of libm_pow d e with
       | InvalidValues =>
           w' = set_dialogs (dialogs w ++ [Warning "Error" "Valores inválidos."]) w
       | WallTooThick =>
           w' = set_dialogs (dialogs w ++ [Warning "Error" "Espesor demasiado grande."]) w
       | ArithmeticError ex =>
           w' = set_dialogs (dialogs w ++ [CriticalExn "Error" "Error: " ex]) w
       | Geometry inner area =>
           let q := float_of_num (dict_get (conversions c) unit_index (PyInt 0)) in
           let vp := (q / area)%float in
           calibration_data w'
           = calibration_data w ++ [mkPoint (len (calibration_data w) + 1) vp v (v - vp)%float]
       end).
Proof.
  intros libm_pow np_mean np_std update_plot w0 c d e v u. split.
  - exact (calculate_velocity_geometry libm_pow w0 c d e u).
  - exact (add_calibration_point_geometry libm_pow np_mean np_std update_plot w0 c d e v u).
Qed.

(** ** Runs of the calibration handlers on concrete sessions *)

(** C2 (as stated, refuted): a point added after a clear receives the index
    1 again, which the first point of the session already had. *)
Lemma C2_index_reused_after_clear_counterexample :
  map punto (session_created add_clear_add initial_window) = [1; 1]%Z /\
  map velocidad_equipo (session_created add_clear_add initial_window)
  = [0.35; 0.70]%float /\
  ~ NoDup (map punto (session_created add_clear_add initial_window)).
Proof.
  assert (H : map punto (session_created add_clear_add initial_window) = [1; 1]%Z)
    by (vm_compute; reflexivity).
  split; [ exact H | split; [ vm_compute; reflexivity | ] ].
  rewrite H. intros Hnd. inversion Hnd as [ | x l Hin _ ]. apply Hin. now left.
Qed.



(** C4 at the third point of a session. *)
Lemma C4_appended_point_witness :
  let w := with_calibration_inputs (Numeric 114.3) (Numeric 6.02) (Numeric 20)
                                   (Numeric 0.70) 0 (session (points 2) initial_window) in
  let add_point := add_calibration_point rounded_pow sequential_mean two_pass_std quiet_plot in
  let vp := (20 / 3600 / (math_pi * (example_1_radius * example_1_radius)))%float in
  len (calibration_data w) = 2%Z /\
  calibration_data (add_point w)
  = calibration_data w
      ++ [mkPoint (len (calibration_data w) + 1) vp 0.70 (0.70 - vp)%float].
Proof.
  intros w add_point vp.
  split; [ vm_compute; reflexivity | ].
  exact (proj1 (C4_appended_point rounded_pow sequential_mean two_pass_std quiet_plot w)
               114.3%float 6.02%float 20%float 0.70%float
               (example_1_radius * example_1_radius)%float
               eq_refl eq_refl eq_refl eq_refl eq_refl eq_refl eq_refl).
Defined.

(** C10 at a wall thicker than the pipe and a reading that is not a number. *)
Lemma C10_rejected_input_leaves_session_witness :
  let w := typed (Numeric 114.3) (Numeric 60) (Numeric 10) NotNumeric in
  let add_point := add_calibration_point rounded_pow sequential_mean two_pass_std quiet_plot in
  calibration_data (add_point w) = calibration_data w /\
  len (calibration_data (add_point w)) = len (calibration_data w) /\
  exists d, add_point w = set_dialogs (dialogs w ++ [d]) w /\ d <> advisory.
Proof.
  intros w add_point.
  apply (C10_rejected_input_leaves_session
           rounded_pow sequential_mean two_pass_std quiet_plot w).
  reflexivity.
Defined.

(** C9 with a C library whose [pow] rounds correctly. *)
Lemma C9_worked_example_witness :
  pow_within_one_ulp rounded_pow example_1_radius /\
  exists res : Results,
    results_text (calculate_velocity rounded_pow example_1) = Some res /\
    approx (r_diametro_interior_mm res) 102.26 0.00005 = true /\
    approx (r_area_m2 res) 0.008213 0.0000005 = true /\
    approx (float_of_num (r_caudal_m3_s res)) 0.002778 0.0000005 = true /\
    approx (r_velocidad res) 0.3382 0.00005 = true /\
    r_analisis res = regime_text LOW /\
    dialogs (calculate_velocity rounded_pow example_1) = [].
Proof.
  assert (H : pow_within_one_ulp rounded_pow example_1_radius).
  { exists (example_1_radius * example_1_radius)%float.
    split; [ reflexivity | left; reflexivity ]. }
  exact (conj H (C9_worked_example rounded_pow H)).
Defined.

(** The amended C6 at the pipe of the worked example, in both tabs. *)
Lemma C6_geometry_checks_and_formulas_witness :
  (exists res : Results,
      results_text (calculate_velocity rounded_pow example_1) = Some res /\
      r_diametro_interior_mm res = (114.3 - 2 * 6.02)%float /\
      r_area_m2 res = (math_pi * (example_1_radius * example_1_radius))%float /\
      dialogs (calculate_velocity rounded_pow example_1) = []) /\
  map punto
      (calibration_data
         (add_calibration_point rounded_pow sequential_mean two_pass_std quiet_plot
            (typed (Numeric 114.3) (Numeric 6.02) (Numeric 10) (Numeric 0.35))))
  = [1%Z].
Proof.
  destruct (C6_geometry_checks_and_formulas
              rounded_pow sequential_mean two_pass_std quiet_plot initial_window
              10 114.3 6.02 0.35 0)
    as [Hcalc Hadd].
  split.
  - exact Hcalc.
  - unfold typed. cbv zeta in Hadd.
    change (geometry_of rounded_pow 114.3 6.02)
      with (Geometry (114.3 - 2 * 6.02)
              (math_pi * (example_1_radius * example_1_radius))) in Hadd.
    change (10 <=? 0)%float with false in Hadd.
    cbv iota beta in Hadd. rewrite Hadd. reflexivity.
Defined.

(** * Further properties of the handlers *)

(** ** More on the order of binary64 values *)

Lemma SFleb_trans x y z : SFleb x y = true -> SFleb y z = true -> SFleb x z = true.
Proof.
  unfold SFleb.
  destruct x as [sx | sx | | sx mx ex], y as [sy | sy | | sy my ey],
           z as [sz | sz | | sz mz ez];
    try destruct sx; try destruct sy; try destruct sz; cbn; try congruence;
    cmp_cases; cbn; try congruence; try lia.
Qed.

Lemma SFleb_SFltb_trans x y z : SFleb x y = true -> SFltb y z = true -> SFltb x z = true.
Proof.
  unfold SFleb, SFltb.
  destruct x as [sx | sx | | sx mx ex], y as [sy | sy | | sy my ey],
           z as [sz | sz | | sz mz ez];
    try destruct sx; try destruct sy; try destruct sz; cbn; try congruence;
    cmp_cases; cbn; try congruence; try lia.
Qed.

(** Two values that are not nan are comparable. *)
Lemma SFltb_false_SFleb x y :
  SFeqb x x = true -> SFeqb y y = true -> SFltb x y = false -> SFleb y x = true.
Proof.
  unfold SFeqb, SFltb, SFleb.
  destruct x as [sx | sx | | sx mx ex], y as [sy | sy | | sy my ey];
    try destruct sx; try destruct sy; cbn; try congruence;
    cmp_cases; cbn; try congruence; try lia.
Qed.

Lemma SFleb_false_SFltb x y :
  SFeqb x x = true -> SFeqb y y = true -> SFleb x y = false -> SFltb y x = true.
Proof.
  unfold SFeqb, SFltb, SFleb.
  destruct x as [sx | sx | | sx mx ex], y as [sy | sy | | sy my ey];
    try destruct sx; try destruct sy; cbn; try congruence;
    cmp_cases; cbn; try congruence; try lia.
Qed.

Lemma SFeqb_refl_false x : SFeqb x x = false -> x = S754_nan.
Proof.
  unfold SFeqb.
  destruct x as [sx | sx | | sx mx ex]; try destruct sx; cbn; try congruence;
    rewrite Z.compare_refl, Pos.compare_cont_refl; cbn; congruence.
Qed.

Lemma not_nan_eqb (x : float) : is_nan x = false -> SFeqb (Prim2SF x) (Prim2SF x) = true.
Proof.
  unfold is_nan. rewrite eqb_spec. now destruct (SFeqb _ _).
Qed.

Lemma nan_compare (x y : float) :
  is_nan x = true ->
  (x <? y)%float = false /\ (x <=? y)%float = false /\
  (y <? x)%float = false /\ (y <=? x)%float = false.
Proof.
  unfold is_nan. rewrite eqb_spec, !ltb_spec, !leb_spec. intros H.
  assert (E : Prim2SF x = S754_nan)
    by (apply SFeqb_refl_false; now destruct (SFeqb _ _)).
  rewrite E. unfold SFltb, SFleb. cbn.
  destruct (Prim2SF y); auto.
Qed.

Lemma leb_trans (x y z : float) :
  (x <=? y)%float = true -> (y <=? z)%float = true -> (x <=? z)%float = true.
Proof. rewrite !leb_spec. apply SFleb_trans. Qed.

Lemma leb_ltb_trans (x y z : float) :
  (x <=? y)%float = true -> (y <? z)%float = true -> (x <? z)%float = true.
Proof. rewrite leb_spec, !ltb_spec. apply SFleb_SFltb_trans. Qed.

Lemma ltb_false_leb (x y : float) :
  is_nan x = false -> is_nan y = false ->
  (x <? y)%float = false -> (y <=? x)%float = true.
Proof.
  intros Hx Hy. rewrite ltb_spec, leb_spec.
  apply SFltb_false_SFleb; now apply not_nan_eqb.
Qed.

Lemma leb_false_ltb (x y : float) :
  is_nan x = false -> is_nan y = false ->
  (x <=? y)%float = false -> (y <? x)%float = true.
Proof.
  intros Hx Hy. rewrite ltb_spec, leb_spec.
  apply SFleb_false_SFltb; now apply not_nan_eqb.
Qed.

Lemma leb_refl (x : float) : is_nan x = false -> (x <=? x)%float = true.
Proof.
  intros H. apply ltb_false_leb; try assumption.
  destruct (x <? x)%float eqn:E; [ | reflexivity ].
  pose proof (ltb_leb_false _ _ E) as E1. pose proof (ltb_leb _ _ E) as E2. congruence.
Qed.

(** ** analyze_velocity on every float *)

Lemma regime_text_inj r1 r2 : regime_text r1 = regime_text r2 -> r1 = r2.
Proof. destruct r1, r2; cbn; intros H; try reflexivity; discriminate H. Qed.

(** The branch [analyze_velocity] takes, by the comparisons that decide it. *)
Lemma analyze_velocity_branches (v : float) :
  ((v <? 0.5)%float = true /\ analyze_velocity v = regime_text LOW) \/
  ((v <? 0.5)%float = false /\ (v <=? 1.5)%float = true /\
   analyze_velocity v = regime_text OPTIMAL) \/
  ((v <? 0.5)%float = false /\ (v <=? 1.5)%float = false /\ (v <=? 3.0)%float = true /\
   analyze_velocity v = regime_text ACCEPTABLE) \/
  ((v <? 0.5)%float = false /\ (v <=? 1.5)%float = false /\ (v <=? 3.0)%float = false /\
   (v <=? 5.0)%float = true /\ analyze_velocity v = regime_text HIGH) \/
  ((v <? 0.5)%float = false /\ (v <=? 1.5)%float = false /\ (v <=? 3.0)%float = false /\
   (v <=? 5.0)%float = false /\ analyze_velocity v = regime_text VERY_HIGH).
Proof.
  unfold analyze_velocity.
  destruct (v <? 0.5)%float; [ now left | right ].
  destruct (v <=? 1.5)%float; [ now left | right ].
  destruct (v <=? 3.0)%float; [ now left | right ].
  destruct (v <=? 5.0)%float; [ now left | right ].
  repeat split.
Qed.

(** X1: [analyze_velocity] classifies every float, and the five ranges of
    the table are the only way to reach each text: a velocity that is not
    nan falls in the range of the regime it is given, and nan is reported as
    VERY_HIGH. *)
Theorem analyze_velocity_partition :
  forall v : float,
    exists r : Regime,
      analyze_velocity v = regime_text r /\
      (forall r', analyze_velocity v = regime_text r' -> r' = r) /\
      if is_nan v then r = VERY_HIGH else in_regime v r.
Proof.
  intros v.
  assert (Huniq : forall r, analyze_velocity v = regime_text r ->
                            forall r', analyze_velocity v = regime_text r' -> r' = r).
  { intros r Hr r' Hr'. apply regime_text_inj. congruence. }
  destruct (is_nan v) eqn:Hnan.
  - destruct (nan_compare v 0.5 Hnan) as (H1 & _).
    destruct (nan_compare v 1.5 Hnan) as (_ & H2 & _).
    destruct (nan_compare v 3.0 Hnan) as (_ & H3 & _).
    destruct (nan_compare v 5.0 Hnan) as (_ & H5 & _).
    exists VERY_HIGH.
    assert (H : analyze_velocity v = regime_text VERY_HIGH)
      by (unfold analyze_velocity; now rewrite H1, H2, H3, H5).
    split; [ exact H | split; [ now apply Huniq | reflexivity ] ].
  - destruct (analyze_velocity_branches v)
      as [(H1 & H) | [(H1 & H2 & H) | [(H1 & H2 & H3 & H)
         | [(H1 & H2 & H3 & H5 & H) | (H1 & H2 & H3 & H5 & H)]]]];
      eexists; (split; [ exact H | split; [ now apply Huniq | ] ]); cbn [in_regime].
    + exact H1.
    + split; [ now apply ltb_false_leb | exact H2 ].
    + split; [ now apply leb_false_ltb | exact H3 ].
    + split; [ now apply leb_false_ltb | exact H5 ].
    + now apply leb_false_ltb.
Qed.

(** X2: the classification is monotone: a velocity that is at least another
    one is never given a lower regime. *)
Theorem analyze_velocity_monotone :
  forall (v1 v2 : float) (r1 r2 : Regime),
    (v1 <=? v2)%float = true ->
    analyze_velocity v1 = regime_text r1 ->
    analyze_velocity v2 = regime_text r2 ->
    (rank r1 <= rank r2)%Z.
Proof.
  intros v1 v2 r1 r2 Hle Hr1 Hr2.
  assert (Hlt : forall t, (v2 <? t)%float = true -> (v1 <? t)%float = true)
    by (intros t; now apply leb_ltb_trans).
  assert (Hle' : forall t, (v2 <=? t)%float = true -> (v1 <=? t)%float = true)
    by (intros t; now apply leb_trans).
  destruct (analyze_velocity_branches v1)
    as [(A1 & A) | [(A1 & A2 & A) | [(A1 & A2 & A3 & A)
       | [(A1 & A2 & A3 & A5 & A) | (A1 & A2 & A3 & A5 & A)]]]];
    rewrite A in Hr1; apply regime_text_inj in Hr1; subst r1;
    destruct (analyze_velocity_branches v2)
      as [(B1 & B) | [(B1 & B2 & B) | [(B1 & B2 & B3 & B)
         | [(B1 & B2 & B3 & B5 & B) | (B1 & B2 & B3 & B5 & B)]]]];
    rewrite B in Hr2; apply regime_text_inj in Hr2; subst r2;
    cbn [rank]; try lia;
    repeat match goal with
           | H : (v2 <? ?t)%float = true |- _ => apply Hlt in H
           | H : (v2 <=? ?t)%float = true |- _ => apply Hle' in H
           end; congruence.
Qed.

Lemma analyze_velocity_monotone_witness :
  (rank OPTIMAL <= rank HIGH)%Z.
Proof.
  exact (analyze_velocity_monotone 1.2 4.0 OPTIMAL HIGH eq_refl eq_refl eq_refl).
Defined.

(** ** Observations a method body leaves alone *)

Lemma preserves_ret {A B : Type} (f : Window -> B) (a : A) : preserves f (ret a).
Proof. intros w. reflexivity. Qed.

Lemma preserves_return {A B : Type} (f : Window -> B) : preserves f (@return_ A).
Proof. intros w. reflexivity. Qed.

Lemma preserves_lift {A B : Type} (f : Window -> B) (r : result A) : preserves f (lift r).
Proof. intros w. destruct r; reflexivity. Qed.

Lemma preserves_read {A B : Type} (f : Window -> B) (g : Window -> A) :
  preserves f (read g).
Proof. intros w. reflexivity. Qed.

Lemma preserves_write {B : Type} (f : Window -> B) (g : Window -> Window) :
  (forall w, f (g w) = f w) -> preserves f (write g).
Proof. intros H w. apply H. Qed.

Lemma preserves_bind {A A' B : Type} (f : Window -> B) (m : M A) (k : A -> M A') :
  preserves f m -> (forall a, preserves f (k a)) -> preserves f (bind m k).
Proof.
  intros Hm Hk w. unfold bind. specialize (Hm w).
  destruct (m w) as [[a | | e] w']; cbn in *; [ | exact Hm | exact Hm ].
  now rewrite Hk.
Qed.

Lemma preserves_when {B : Type} (f : Window -> B) (b : bool) (m : M unit) :
  preserves f m -> preserves f (when b m).
Proof. intros H. destruct b; [ exact H | apply preserves_ret ]. Qed.

Lemma preserves_call {B : Type} (f : Window -> B) (m : M unit) :
  preserves f m -> preserves f (call m).
Proof.
  intros H w. unfold call. specialize (H w).
  destruct (m w) as [[a | | e] w']; exact H.
Qed.

Lemma preserves_try_except {B : Type} (f : Window -> B) (body : M unit)
      (h : exn -> dialog) :
  (forall d w, f (set_dialogs d w) = f w) ->
  preserves f body -> forall w, f (try_except body h w) = f w.
Proof.
  intros Hf H w. unfold try_except. specialize (H w).
  destruct (body w) as [[a | | e] w']; cbn in *; rewrite ?Hf; exact H.
Qed.

Ltac preserves :=
  unfold show, clear_line, setCurrentIndex, currentText;
  repeat first
    [ progress intros
    | progress cbv zeta
    | apply preserves_bind
    | apply preserves_ret
    | apply preserves_return
    | apply preserves_lift
    | apply preserves_read
    | apply preserves_when
    | apply preserves_call
    | apply preserves_write; intros; reflexivity ].

Section SessionFacts.

Variable libm_pow : float -> float -> float * bool.
Variable np_mean : list float -> float.
Variable np_std : list float -> float.
Variable update_plot : list float -> list float -> Statistics -> result unit.
Variable write_file : string -> Report -> result unit.

Local Abbreviation add_point :=
  (add_calibration_point libm_pow np_mean np_std update_plot).
Local Abbreviation refresh_plot := (update_calibration_plot np_mean np_std update_plot).
Local Abbreviation export := (export_results np_mean np_std write_file).
Local Abbreviation new_point' := (new_point libm_pow).
Local Abbreviation draw := (draw_of np_mean np_std update_plot).
Local Abbreviation draws_return' :=
  (draws_return libm_pow np_mean np_std update_plot write_file).
Local Abbreviation appends :=
  (add_calibration_point_appends libm_pow np_mean np_std update_plot).
Local Abbreviation step' := (step libm_pow np_mean np_std update_plot write_file).
Local Abbreviation run' := (run libm_pow np_mean np_std update_plot write_file).

Lemma py_max_nonempty (l : list float) : l <> [] -> exists m, py_max l = Ok m.
Proof. destruct l; [ congruence | intros _; eexists; reflexivity ]. Qed.

Lemma py_min_nonempty (l : list float) : l <> [] -> exists m, py_min l = Ok m.
Proof. destruct l; [ congruence | intros _; eexists; reflexivity ]. Qed.

(** *** What the other handlers leave alone *)

Lemma calculate_velocity_preserves {B : Type} (f : Window -> B) :
  (forall d w, f (set_dialogs d w) = f w) ->
  (forall r w, f (set_results_text r w) = f w) ->
  forall w, f (calculate_velocity libm_pow w) = f w.
Proof.
  intros Hd Hr w. unfold calculate_velocity.
  apply preserves_try_except; [ exact Hd | ].
  unfold show, currentText.
  repeat first
    [ progress intros | progress cbv zeta | apply preserves_bind | apply preserves_ret
    | apply preserves_return | apply preserves_lift | apply preserves_read
    | apply preserves_when
    | apply preserves_write; intros; first [ apply Hd | apply Hr ] ].
Qed.

Lemma clear_fields_preserves {B : Type} (f : Window -> B) :
  (forall t w, f (set_text t w) = f w) ->
  (forall c w, f (set_currentIndex c w) = f w) ->
  (forall r w, f (set_results_text r w) = f w) ->
  forall w, f (clear_fields w) = f w.
Proof.
  intros Ht Hc Hr w. unfold clear_fields, method.
  assert (H : preserves f
                (clear_line caudal_input ;;; clear_line diametro_input ;;;
                 clear_line espesor_input ;;; write (set_results_text None) ;;;
                 setCurrentIndex caudal_units 0)); [ | apply H ].
  unfold clear_line, setCurrentIndex.
  repeat first
    [ progress intros | apply preserves_bind
    | apply preserves_write; intros; first [ apply Ht | apply Hc | apply Hr ] ].
Qed.

Lemma export_results_preserves {B : Type} (f : Window -> B) :
  (forall d w, f (set_dialogs d w) = f w) ->
  (forall l w, f (set_files l w) = f w) ->
  forall w, f (export w) = f w.
Proof.
  intros Hd Hf w. unfold export_results.
  destruct (is_empty (calibration_data w)); [ apply Hd | ].
  apply preserves_try_except; [ exact Hd | ].
  unfold show.
  repeat first
    [ progress intros | progress cbv zeta | apply preserves_bind | apply preserves_ret
    | apply preserves_lift | apply preserves_read
    | apply preserves_write; intros; first [ apply Hd | apply Hf ] ].
Qed.

(** *** Invariants of a session *)

Lemma step_table_current w ev : table_current w -> table_current (step' w ev).
Proof.
  intros [Ht He]. unfold table_current. destruct ev; cbn [step].
  - split; [ exact Ht | exact He ].
  - split; [ exact Ht | exact He ].
  - rewrite !calculate_velocity_preserves by reflexivity. now split.
  - rewrite !clear_fields_preserves by reflexivity. now split.
  - destruct (new_point' w) as [p | ] eqn:Hp.
    + destruct (appends w p Hp) as (st & stx & _ & _ & ->).
      assert (Hne : calibration_data w ++ [p] <> [])
        by (intros H; apply app_eq_nil in H; destruct H; discriminate).
      destruct (draw _) as [[] | ex]; [ | now split; [ | left ] ].
      cbv zeta. destruct (10 <=? _)%Z; cbn; (split; [ reflexivity | now left ]).
    + destruct (add_calibration_point_none libm_pow np_mean np_std update_plot w Hp)
        as (d & -> & _). cbn. now split.
  - destruct reply_yes; cbn; [ split; [ reflexivity | now right ] | now split ].
  - rewrite !export_results_preserves by reflexivity. now split.
Qed.

Lemma new_point_consistent w p : new_point' w = Some p -> consistent_point p.
Proof.
  unfold new_point.
  destruct (text w calib_diametro), (text w calib_espesor),
           (text w calib_caudal), (text w calib_velocidad_equipo); try discriminate.
  destruct (rejected _ _ _); [ discriminate | ].
  destruct (reference_velocity _ _ _ _ _); [ | discriminate ].
  intros [= <-]. split; [ reflexivity | cbn; unfold len; lia ].
Qed.

Lemma step_consistent w ev :
  Forall consistent_point (calibration_data w) ->
  Forall consistent_point (calibration_data (step' w ev)).
Proof.
  intros H. destruct ev; cbn [step].
  - exact H.
  - exact H.
  - now rewrite calculate_velocity_preserves.
  - now rewrite clear_fields_preserves.
  - rewrite add_calibration_point_data.
    destruct (new_point' w) as [p | ] eqn:Hp; [ | exact H ].
    apply Forall_app. split; [ exact H | ].
    constructor; [ now apply (new_point_consistent w) | constructor ].
  - rewrite clear_calibration_data. destruct reply_yes; [ constructor | exact H ].
  - now rewrite export_results_preserves.
Qed.

Lemma display_current_ext w w' :
  calibration_data w' = calibration_data w ->
  plot_widget w' = plot_widget w ->
  stats_text w' = stats_text w ->
  display_current np_mean np_std w -> display_current np_mean np_std w'.
Proof. unfold display_current. intros -> -> ->. exact (fun H => H). Qed.

Lemma step_display_current w ev :
  draws_return' [ev] w = true ->
  display_current np_mean np_std w -> display_current np_mean np_std (step' w ev).
Proof.
  intros Hdraw H. destruct ev; cbn [step].
  - exact H.
  - exact H.
  - apply (display_current_ext w); try apply calculate_velocity_preserves;
      try reflexivity; exact H.
  - apply (display_current_ext w); try apply clear_fields_preserves;
      try reflexivity; exact H.
  - cbn [draws_return step] in Hdraw. rewrite andb_true_r in Hdraw.
    rewrite add_calibration_point_data in Hdraw.
    destruct (new_point' w) as [p | ] eqn:Hp.
    + destruct (appends w p Hp) as (st & stx & Hd & _ & ->).
      replace (List.length (calibration_data w)
               <? List.length (calibration_data w ++ [p]))%nat with true in Hdraw
        by (symmetry; apply Nat.ltb_lt; rewrite length_app; cbn; lia).
      destruct (draw (calibration_data w ++ [p])) as [[] | ex]; [ | discriminate ].
      cbv zeta.
      assert (E : forall w1, calibration_data w1 = calibration_data w ++ [p] ->
                  plot_widget w1
                  = PlotShown (map velocidad_patron (calibration_data w ++ [p]))
                              (map error (calibration_data w ++ [p])) st ->
                  stats_text w1 = Some stx ->
                  display_current np_mean np_std w1).
      { intros w1 E1 E2 E3. unfold display_current. rewrite E1 in *.
        destruct (calibration_data w ++ [p]) eqn:Hl.
        - apply app_eq_nil in Hl. destruct Hl; discriminate.
        - exists st, stx. auto. }
      destruct (10 <=? _)%Z; apply E; reflexivity.
    + destruct (add_calibration_point_none libm_pow np_mean np_std update_plot w Hp)
        as (d & -> & _). exact H.
  - destruct reply_yes; [ unfold display_current; cbn; now split | exact H ].
  - apply (display_current_ext w); try apply export_results_preserves;
      try reflexivity; exact H.
Qed.

Lemma draws_return_cons ev evs w :
  draws_return' (ev :: evs) w = true ->
  draws_return' [ev] w = true /\ draws_return' evs (step' w ev) = true.
Proof.
  cbn [draws_return]. rewrite andb_true_r. intros H.
  apply andb_true_iff in H. exact H.
Qed.

Lemma run_display_current evs :
  forall w, display_current np_mean np_std w ->
            draws_return' evs w = true ->
            display_current np_mean np_std (run' evs w).
Proof.
  induction evs as [ | ev evs IH]; intros w H Hdraw; cbn [run fold_left].
  - exact H.
  - apply draws_return_cons in Hdraw. destruct Hdraw as [H1 H2].
    apply IH; [ now apply step_display_current | exact H2 ].
Qed.

Lemma run_invariant (P : Window -> Prop) :
  (forall w ev, P w -> P (step' w ev)) ->
  forall evs w, P w -> P (run' evs w).
Proof.
  intros Hstep evs. induction evs as [ | ev evs IH]; intros w H; cbn [run fold_left].
  - exact H.
  - apply IH, Hstep, H.
Qed.

(** X3: through every sequence of user actions on a new window the table
    shows exactly the calibration list, and whenever the list is empty the
    plot is cleared and the statistics box is empty. *)
Theorem session_table_shows_calibration_data :
  forall evs : list event,
    let w := run' evs initial_window in
    calib_table w = calibration_data w /\
    (calibration_data w <> [] \/ (plot_widget w = PlotCleared /\ stats_text w = None)).
Proof.
  intros evs. apply (run_invariant table_current).
  - apply step_table_current.
  - split; [ reflexivity | now right ].
Qed.

(** X4: every point a session holds is consistent: its error is its
    instrument reading minus its reference velocity, and its index is at
    least 1. *)
Theorem session_points_consistent :
  forall evs : list event,
    Forall (fun p => error p = (velocidad_equipo p - velocidad_patron p)%float /\
                     (1 <= punto p)%Z)
           (calibration_data (run' evs initial_window)).
Proof.
  intros evs.
  apply (run_invariant (fun w => Forall consistent_point (calibration_data w))).
  - apply step_consistent.
  - constructor.
Qed.

(** X5: in a session where every drawing made returned, that is where
    each click that appended a point drew the new list without raising, the
    plot and the statistics box describe the points currently held: the plot
    shows their reference velocities and errors, and the box their count,
    mean, standard deviation, extrema and twice the standard deviation. *)
Theorem session_display_describes_calibration_data :
  forall evs : list event,
    draws_return' evs initial_window = true ->
    let w := run' evs initial_window in
    match calibration_data w with
    | [] => plot_widget w = PlotCleared /\ stats_text w = None
    | data =>
        exists st stx,
          describes np_mean np_std data st stx /\
          plot_widget w = PlotShown (map velocidad_patron data) (map error data) st /\
          stats_text w = Some stx
    end.
Proof.
  intros evs Hdraw. apply run_display_current.
  - split; reflexivity.
  - exact Hdraw.
Qed.

(** *** Adding a point: drawing failures and repeated clicks *)

Lemma add_calibration_point_new_point w p :
  calibration_data (add_point w) = calibration_data w ++ [p] -> new_point' w = Some p.
Proof.
  rewrite add_calibration_point_data.
  destruct (new_point' w) as [q | ].
  - intros H. apply app_inj_tail in H. destruct H as [_ ->]. reflexivity.
  - intros H. symmetry in H. now apply app_one_neq in H.
Qed.

(** X6: a point is stored before the plot is drawn. When a click appends the
    point [p] and drawing the new list raises [e], the point stays in the
    list and in the table, the plot is left as the interrupted drawing left
    it, the statistics box and the input fields are left as they were, and
    of the dialogs only the error dialog is shown, not the advisory: the
    dialog of invalid numeric values when [e] is a ValueError, as numpy's
    LinAlgError is, and the dialog that prints [e] otherwise. *)
Theorem add_calibration_point_keeps_point_when_drawing_fails :
  forall (w : Window) (p : CalibrationPoint) (e : exn),
    let data := calibration_data w ++ [p] in
    calibration_data (add_point w) = data ->
    draw data = Raise e ->
    exists statistics : Statistics,
      statistics_of np_mean np_std data = Ok statistics /\
      add_point w
      = set_dialogs
          (dialogs w ++ [if is_ValueError e
                         then Critical "Error" "Valores numéricos inválidos."
                         else CriticalExn "Error" "Error: " e])
          (set_plot_widget
             (PlotInterrupted (map velocidad_patron data) (map error data) statistics)
             (set_calib_table data (set_calibration_data data w))).
Proof.
  intros w p e data Hadd Hdraw.
  apply add_calibration_point_new_point in Hadd.
  destruct (appends w p Hadd) as (st & stx & _ & Hst & ->).
  fold data. rewrite Hdraw. exists st. split; [ exact Hst | reflexivity ].
Qed.

Lemma add_calibration_point_blank_flow w :
  text w calib_caudal = Blank ->
  add_point w = set_dialogs (dialogs w ++ [Warning "Error" "Complete todos los campos."]) w.
Proof.
  intros H. unfold add_calibration_point, try_except.
  cbv [bind read when lift show write return_ ret]. rewrite H.
  destruct (text w calib_diametro), (text w calib_espesor); reflexivity.
Qed.

(** X7: a successful click empties the flow and the reading, so clicking
    again at once adds nothing: when a click appended a point and its drawing
    raised nothing, a second click only shows the warning that fields are
    missing. *)
Theorem add_calibration_point_twice :
  forall w : Window,
    calibration_data (add_point w) <> calibration_data w ->
    draw (calibration_data (add_point w)) = Ok tt ->
    let w1 := add_point w in
    text w1 calib_caudal = Blank /\
    text w1 calib_velocidad_equipo = Blank /\
    text w1 calib_diametro = text w calib_diametro /\
    text w1 calib_espesor = text w calib_espesor /\
    add_point w1
    = set_dialogs (dialogs w1 ++ [Warning "Error" "Complete todos los campos."]) w1.
Proof.
  intros w Hchg Hdraw w1.
  assert (Hflow : text w1 calib_caudal = Blank /\
                  text w1 calib_velocidad_equipo = Blank /\
                  text w1 calib_diametro = text w calib_diametro /\
                  text w1 calib_espesor = text w calib_espesor).
  { subst w1. apply add_calibration_point_changed in Hchg.
    rewrite add_calibration_point_data in Hdraw.
    destruct (new_point' w) as [p | ] eqn:Hp; [ | congruence ].
    destruct (appends w p Hp) as (st & stx & _ & _ & ->).
    rewrite Hdraw. cbv zeta.
    destruct (10 <=? _)%Z;
      (split; [ reflexivity | ]); (split; [ reflexivity | ]); split; reflexivity. }
  destruct Hflow as (H1 & H2 & H3 & H4). repeat (split; [ assumption | ]).
  now apply add_calibration_point_blank_flow.
Qed.

(** *** Exporting *)

(** What a click on "Exportar Resultados" does, in full: one dialog and
    nothing else, or one file and the dialog that names it. *)
Lemma export_results_outcome :
  forall w : Window,
    (exists d, export w = set_dialogs (dialogs w ++ [d]) w) \/
    (exists (d e max_e min_e : float),
        let data := calibration_data w in
        let errors := map error data in
        let report :=
          mkReport (Numeric d) (Numeric e) (d - 2 * e)%float data
                   (np_mean errors) (std_of np_std errors) max_e min_e
                   (num_mul (PyInt 2) (std_of np_std errors)) in
        data <> [] /\
        text w calib_diametro = Numeric d /\
        text w calib_espesor = Numeric e /\
        py_max errors = Ok max_e /\
        py_min errors = Ok min_e /\
        write_file (filename (len data)) report = Ok tt /\
        export w
        = set_dialogs
            (dialogs w ++ [Information "Exportación"
                             ("Resultados exportados a: " ++ filename (len data))%string])
            (set_files (files w ++ [(filename (len data), report)]) w)).
Proof.
  intros w. unfold export_results.
  destruct (calibration_data w) as [ | p data] eqn:E; cbn [is_empty].
  - left. eexists. reflexivity.
  - unfold try_except. cbv [bind read lift show write ret].
    destruct (text w calib_diametro) as [ | | d];
      try (left; eexists; reflexivity).
    destruct (text w calib_espesor) as [ | | e]; cbn;
      try (left; eexists; reflexivity).
    rewrite E. cbn.
    match goal with
    | |- context [write_file ?n ?r] => destruct (write_file n r) as [[] | ex] eqn:Hw
    end; cbn; [ | left; eexists; reflexivity ].
    right. exists d, e. eexists. eexists.
    cbv zeta.
    split; [ discriminate | ].
    split; [ reflexivity | ]. split; [ reflexivity | ].
    split; [ reflexivity | ]. split; [ reflexivity | ].
    split; [ exact Hw | reflexivity ].
Qed.

(** X8: exporting changes nothing but the dialogs and the files, and writes
    at most one file per click. A file is written only when there are
    points and both pipe fields hold numbers; it is named after the number
    of points and its report lists every point of the list in order, with
    the inner diameter computed from the pipe fields as they are now. *)
Theorem export_results_writes_at_most_one_file :
  forall w : Window,
    let w' := export w in
    calibration_data w' = calibration_data w /\
    calib_table w' = calib_table w /\
    plot_widget w' = plot_widget w /\
    stats_text w' = stats_text w /\
    results_text w' = results_text w /\
    text w' = text w /\
    currentIndex w' = currentIndex w /\
    (files w' = files w \/
     exists (d e : float) (report : Report),
       files w' = files w ++ [(filename (len (calibration_data w)), report)] /\
       calibration_data w <> [] /\
       text w calib_diametro = Numeric d /\
       text w calib_espesor = Numeric e /\
       rp_diametro_interior report = (d - 2 * e)%float /\
       rp_puntos report = calibration_data w).
Proof.
  intros w w'. subst w'.
  repeat (split; [ apply export_results_preserves; reflexivity | ]).
  destruct (export_results_outcome w)
    as [(dlg & ->) | (d & e & max_e & min_e & Hne & Hd & He & _ & _ & _ & ->)].
  - now left.
  - right. exists d, e. eexists. cbn. repeat split; assumption.
Qed.

(** X9: the report agrees with the display. In a session where every
    drawing made returned, that is where each click that appended a point
    drew the new list without raising, the file an export writes holds the
    statistics the statistics box shows at that moment (mean, standard
    deviation, extrema, expanded uncertainty), and its name and its rows
    are those of the points counted there. *)
Theorem export_results_matches_display :
  forall (evs : list event) (name : string) (report : Report),
    draws_return' evs initial_window = true ->
    let w := run' evs initial_window in
    files (export w) = files w ++ [(name, report)] ->
    exists stx : StatsText,
      stats_text w = Some stx /\
      name = filename (st_puntos stx) /\
      len (rp_puntos report) = st_puntos stx /\
      rp_mean_error report = st_mean_error stx /\
      rp_std_error report = st_std_error stx /\
      rp_max_error report = st_max_error stx /\
      rp_min_error report = st_min_error stx /\
      rp_incertidumbre report = st_incertidumbre stx.
Proof.
  intros evs name report Hdraw w Hfile.
  assert (Hdisp : display_current np_mean np_std w).
  { apply run_display_current; [ split; reflexivity | exact Hdraw ]. }
  destruct (export_results_outcome w)
    as [(dlg & E) | (d & e & max_e & min_e & Hne & _ & _ & Hmax & Hmin & _ & E)];
    rewrite E in Hfile; cbn in Hfile.
  - exfalso. symmetry in Hfile. now apply app_one_neq in Hfile.
  - apply app_inj_tail in Hfile. destruct Hfile as [_ [= <- <-]].
    unfold display_current in Hdisp.
    destruct (calibration_data w) as [ | p data] eqn:Hdata; [ congruence | ].
    destruct Hdisp as (st & stx & Hdesc & _ & Hstx).
    destruct Hdesc as (D1 & D2 & D3 & D4 & _ & _ & D7 & D8 & D9 & D10 & D11 & D12).
    exists stx. cbn [rp_puntos rp_mean_error rp_std_error rp_max_error rp_min_error
                     rp_incertidumbre].
    rewrite D7, D8, D9, D10, D11, D12, D1, D2.
    rewrite Hmax in D3. rewrite Hmin in D4.
    injection D3 as <-. injection D4 as <-.
    repeat split; assumption.
Qed.

(** *** The calculator, in full *)

(** What a click on "Calcular Velocidad" does: one dialog and nothing else,
    or new results and nothing else. *)
Lemma calculate_velocity_outcome w :
  (exists d, calculate_velocity libm_pow w = set_dialogs (dialogs w ++ [d]) w) \/
  (exists (c d e : float) (unit_text : string) (q : num) (sq : float),
      let inner_mm := (d - 2 * e)%float in
      let inner_m := (inner_mm / 1000)%float in
      let area := (math_pi * sq)%float in
      let velocidad := (float_of_num q / area)%float in
      text w caudal_input = Numeric c /\
      text w diametro_input = Numeric d /\
      text w espesor_input = Numeric e /\
      convert_flow_to_m3_per_s c (currentIndex w caudal_units) = Ok q /\
      py_pow2 libm_pow (inner_m / 2) = Ok sq /\
      calculate_velocity libm_pow w
      = set_results_text
          (Some (mkResults c unit_text d e inner_mm inner_m area q velocidad
                           (analyze_velocity velocidad))) w).
Proof.
  unfold calculate_velocity, try_except.
  cbv [bind read when lift show write return_ ret currentText].
  destruct (text w caudal_input) as [ | | c], (text w diametro_input) as [ | | d],
           (text w espesor_input) as [ | | e];
    cbn; try (left; eexists; reflexivity).
  destruct (c <=? 0)%float; cbn; [ left; eexists; reflexivity | ].
  destruct (d <=? 0)%float; cbn; [ left; eexists; reflexivity | ].
  destruct (e <? 0)%float; cbn; [ left; eexists; reflexivity | ].
  destruct (d / 2 <=? e)%float; cbn; [ left; eexists; reflexivity | ].
  destruct (py_pow2 libm_pow ((d - 2 * e) / 1000 / 2)) as [sq | ex] eqn:Hsq; cbn;
    [ | left; eexists; reflexivity ].
  unfold py_truediv.
  destruct (_ =? 0)%float; cbn; [ left; eexists; reflexivity | ].
  match goal with
  | |- context [py_index (split "(" ?s) 1] =>
      destruct (py_index (split "(" s) 1) as [after | ex]
  end; cbn; [ | left; eexists; reflexivity ].
  destruct (py_index (split ")" after) 0) as [unit_text | ex]; cbn;
    [ | left; eexists; reflexivity ].
  right. exists c, d, e, unit_text. eexists. exists sq. cbv zeta.
  repeat (split; [ reflexivity | ]). split; [ exact Hsq | reflexivity ].
Qed.

(** X10: a calculation never shows a result and a message together, and
    touches nothing else: either it only shows one dialog, leaving the
    previous results on display, or it only replaces the results. The
    results shown are consistent: the inputs as typed, the inner diameter
    derived from them, the area pi times the square of the inner radius as
    Python's [** 2] returned it, the velocity as converted flow over area,
    and the analysis of that velocity. *)
Theorem calculate_velocity_result_or_dialog :
  forall w : Window,
    (exists d, calculate_velocity libm_pow w = set_dialogs (dialogs w ++ [d]) w) \/
    (exists res : Results,
        calculate_velocity libm_pow w = set_results_text (Some res) w /\
        text w caudal_input = Numeric (r_caudal res) /\
        text w diametro_input = Numeric (r_diametro_exterior res) /\
        text w espesor_input = Numeric (r_espesor res) /\
        r_diametro_interior_mm res = (r_diametro_exterior res - 2 * r_espesor res)%float /\
        r_diametro_interior_m res = (r_diametro_interior_mm res / 1000)%float /\
        (exists sq : float,
            py_pow2 libm_pow (r_diametro_interior_m res / 2) = Ok sq /\
            r_area_m2 res = (math_pi * sq)%float) /\
        convert_flow_to_m3_per_s (r_caudal res) (currentIndex w caudal_units)
        = Ok (r_caudal_m3_s res) /\
        r_velocidad res = (float_of_num (r_caudal_m3_s res) / r_area_m2 res)%float /\
        r_analisis res = analyze_velocity (r_velocidad res)).
Proof.
  intros w.
  destruct (calculate_velocity_outcome w)
    as [H | (c & d & e & unit_text & q & sq & Hc & Hd & He & Hq & Hsq & ->)];
    [ now left | right ].
  eexists. split; [ reflexivity | ]. cbn.
  repeat (split; [ first [ assumption | reflexivity ] | ]).
  split; [ exists sq; split; [ exact Hsq | reflexivity ] | ].
  repeat (split; [ first [ assumption | reflexivity ] | ]). reflexivity.
Qed.

(** X11: every click shows at most one dialog and writes at most one file;
    editing a field or selecting a unit shows and writes nothing. *)
Theorem step_shows_at_most_one_dialog :
  forall (w : Window) (ev : event),
    exists (ds : list dialog) (fs : list (string * Report)),
      dialogs (step' w ev) = dialogs w ++ ds /\
      files (step' w ev) = files w ++ fs /\
      (List.length ds <= 1)%nat /\ (List.length fs <= 1)%nat /\
      match ev with
      | Edit _ _ | Select _ _ => ds = [] /\ fs = []
      | ClickClearCalibration _ => List.length ds = 1%nat /\ fs = []
      | ClickExport => List.length ds = 1%nat
      | _ => fs = []
      end.
Proof.
  intros w ev. destruct ev; cbn [step].
  - exists [], []. cbn. rewrite !app_nil_r. repeat split; lia.
  - exists [], []. cbn. rewrite !app_nil_r. repeat split; lia.
  - destruct (calculate_velocity_outcome w)
      as [(d & ->) | (c & d & e & unit_text & q & sq & _ & _ & _ & _ & _ & ->)].
    + exists [d], []. cbn. rewrite !app_nil_r. repeat split; lia.
    + exists [], []. cbn. rewrite !app_nil_r. repeat split; lia.
  - exists [], []. cbn. rewrite !app_nil_r. repeat split; lia.
  - destruct (new_point' w) as [p | ] eqn:Hp.
    + destruct (appends w p Hp) as (st & stx & _ & _ & ->).
      destruct (draw _) as [[] | ex].
      * cbv zeta. destruct (10 <=? _)%Z.
        -- exists [advisory], []. cbn. rewrite !app_nil_r. repeat split; lia.
        -- exists [], []. cbn. rewrite !app_nil_r. repeat split; lia.
      * eexists [_], []. cbn. rewrite !app_nil_r. repeat split; lia.
    + destruct (add_calibration_point_none libm_pow np_mean np_std update_plot w Hp)
        as (d & -> & _).
      exists [d], []. cbn. rewrite !app_nil_r. repeat split; lia.
  - destruct reply_yes; eexists [_], []; cbn; rewrite !app_nil_r; repeat split; lia.
  - destruct (export_results_outcome w)
      as [(dlg & ->) | (d & e & max_e & min_e & _ & _ & _ & _ & _ & _ & ->)].
    + exists [dlg], []. cbn. rewrite !app_nil_r. repeat split; lia.
    + eexists [_], [_]. cbn. repeat split; lia.
Qed.

End SessionFacts.

(** ** Units, extrema and the plot *)

(** X12: every item of either combo box has a conversion factor, so a unit a
    user can select never falls back to the default 0; and every item of the
    calculator's combo box carries a text in parentheses, which is what the
    results show as unit. *)
Theorem selectable_units_are_converted :
  forall (c : ComboBox) (i : Z) (v : float),
    selectable c i ->
    (exists f, convert_flow_to_m3_per_s v i = Ok (PyFloat f)) /\
    (c = caudal_units ->
     exists after unit_text,
       py_index (split "(" (nth (Z.to_nat i) (items c) EmptyString)) 1 = Ok after /\
       py_index (split ")" after) 0 = Ok unit_text).
Proof.
  intros c i v Hi.
  assert (H : In i [0; 1; 2; 3; 4; 5; 6]%Z)
    by (unfold selectable in Hi; destruct c; cbn in Hi |- *; lia).
  cbn in H.
  repeat (destruct H as [<- | H];
          [ split; [ eexists; reflexivity
                   | intros ->; eexists; eexists; split; reflexivity ] | ]).
  destruct H.
Qed.

Lemma selectable_units_are_converted_witness :
  (exists f, convert_flow_to_m3_per_s 10 5 = Ok (PyFloat f)) /\
  (caudal_units = caudal_units ->
   exists after unit_text,
     py_index (split "(" (nth (Z.to_nat 5) (items caudal_units) EmptyString)) 1 = Ok after /\
     py_index (split ")" after) 0 = Ok unit_text).
Proof.
  apply (selectable_units_are_converted caudal_units 5 10).
  unfold selectable. cbn. lia.
Defined.

(** X13: with no unit selected the calculator cannot name the unit: on
    inputs that pass every check, a unit index outside the seven items ends
    in an IndexError dialog and no results, although the conversion itself
    fell back to 0 without complaint. *)
Theorem calculate_velocity_without_unit :
  forall (libm_pow : float -> float -> float * bool)
         (w0 : Window) (c d e inner area : float) (unit_index : Z),
    (c <=? 0)%float = false ->
    geometry_of libm_pow d e = Geometry inner area ->
    ~ supported_unit unit_index ->
    let w := with_calculator_inputs (Numeric c) (Numeric d) (Numeric e) unit_index w0 in
    convert_flow_to_m3_per_s c unit_index = Ok (PyInt 0) /\
    calculate_velocity libm_pow w
    = set_dialogs (dialogs w ++ [CriticalExn "Error" "Error: " IndexError]) w.
Proof.
  intros libm_pow w0 c d e inner area u Hc Hg Hu w.
  assert (Hq : convert_flow_to_m3_per_s c u = Ok (PyInt 0)).
  { unfold convert_flow_to_m3_per_s, conversions. cbn [dict_get].
    unfold supported_unit in Hu.
    repeat match goal with
           | |- context [(?k =? u)%Z] =>
               destruct (Z.eqb_spec k u) as [E | _]; [ exfalso; lia | ]
           end.
    reflexivity. }
  split; [ exact Hq | ].
  assert (Hs : supported u = false).
  { unfold supported. unfold supported_unit in Hu.
    destruct (0 <=? u)%Z eqn:H0, (u <=? 6)%Z eqn:H6; try reflexivity.
    exfalso. apply Hu. split; [ now apply Z.leb_le | now apply Z.leb_le ]. }
  pose proof (calculate_velocity_geometry libm_pow w0 c d e u) as H.
  cbv zeta in H. rewrite Hc, Hg, Hs in H. exact H.
Qed.

Lemma calculate_velocity_without_unit_witness :
  let w := with_calculator_inputs (Numeric 10) (Numeric 114.3) (Numeric 6.02) (-1)
                                  initial_window in
  convert_flow_to_m3_per_s 10 (-1) = Ok (PyInt 0) /\
  calculate_velocity rounded_pow w
  = set_dialogs (dialogs w ++ [CriticalExn "Error" "Error: " IndexError]) w.
Proof.
  apply (calculate_velocity_without_unit rounded_pow initial_window 10 114.3 6.02
           (114.3 - 2 * 6.02)
           (math_pi * (example_1_radius * example_1_radius))
           (-1)).
  - reflexivity.
  - reflexivity.
  - unfold supported_unit. lia.
Defined.

(** The fold of [max] keeps an item of the list and, without nan, ends
    above every item. *)
Lemma fold_max_spec (xs : list float) :
  forall acc : float,
    let m := fold_left (fun m item => if (m <? item)%float then item else m) xs acc in
    (m = acc \/ In m xs) /\
    (is_nan acc = false -> no_nan xs = true ->
     is_nan m = false /\ (acc <=? m)%float = true /\
     forall x, In x xs -> (x <=? m)%float = true).
Proof.
  induction xs as [ | x xs IH]; intros acc; cbn [fold_left].
  - split; [ now left | ].
    intros Hacc _. split; [ exact Hacc | split; [ now apply leb_refl | intros x [] ] ].
  - specialize (IH (if (acc <? x)%float then x else acc)). cbv zeta in IH |- *.
    destruct IH as [Hin Hb]. split.
    + destruct Hin as [-> | Hin]; [ | right; now right ].
      destruct (acc <? x)%float; [ right; now left | now left ].
    + intros Hacc Hxs. cbn [no_nan forallb] in Hxs.
      apply andb_true_iff in Hxs. destruct Hxs as [Hx Hxs].
      apply negb_true_iff in Hx.
      destruct (acc <? x)%float eqn:Hlt.
      * destruct (Hb Hx Hxs) as (Hm & Hle & Hall).
        split; [ exact Hm | split ].
        -- apply ltb_leb in Hlt. eapply leb_trans; eauto.
        -- intros y [<- | Hy]; [ exact Hle | now apply Hall ].
      * destruct (Hb Hacc Hxs) as (Hm & Hle & Hall).
        split; [ exact Hm | split; [ exact Hle | ] ].
        intros y [<- | Hy]; [ | now apply Hall ].
        apply (leb_trans _ acc); [ now apply ltb_false_leb | exact Hle ].
Qed.

Lemma fold_min_spec (xs : list float) :
  forall acc : float,
    let m := fold_left (fun m item => if (item <? m)%float then item else m) xs acc in
    (m = acc \/ In m xs) /\
    (is_nan acc = false -> no_nan xs = true ->
     is_nan m = false /\ (m <=? acc)%float = true /\
     forall x, In x xs -> (m <=? x)%float = true).
Proof.
  induction xs as [ | x xs IH]; intros acc; cbn [fold_left].
  - split; [ now left | ].
    intros Hacc _. split; [ exact Hacc | split; [ now apply leb_refl | intros x [] ] ].
  - specialize (IH (if (x <? acc)%float then x else acc)). cbv zeta in IH |- *.
    destruct IH as [Hin Hb]. split.
    + destruct Hin as [-> | Hin]; [ | right; now right ].
      destruct (x <? acc)%float; [ right; now left | now left ].
    + intros Hacc Hxs. cbn [no_nan forallb] in Hxs.
      apply andb_true_iff in Hxs. destruct Hxs as [Hx Hxs].
      apply negb_true_iff in Hx.
      destruct (x <? acc)%float eqn:Hlt.
      * destruct (Hb Hx Hxs) as (Hm & Hle & Hall).
        split; [ exact Hm | split ].
        -- apply ltb_leb in Hlt. eapply leb_trans; eauto.
        -- intros y [<- | Hy]; [ exact Hle | now apply Hall ].
      * destruct (Hb Hacc Hxs) as (Hm & Hle & Hall).
        split; [ exact Hm | split; [ exact Hle | ] ].
        intros y [<- | Hy]; [ | now apply Hall ].
        apply (leb_trans _ acc); [ exact Hle | now apply ltb_false_leb ].
Qed.

(** X14: the extrema of the statistics are real extrema. The maximum and the
    minimum error are errors of stored points, and when no error is nan they
    bound every error, with the minimum at most the maximum. *)
Theorem statistics_extrema :
  forall (errors : list float) (max_e min_e : float),
    py_max errors = Ok max_e ->
    py_min errors = Ok min_e ->
    In max_e errors /\ In min_e errors /\
    (no_nan errors = true ->
     (min_e <=? max_e)%float = true /\
     forall x, In x errors -> (min_e <=? x)%float = true /\ (x <=? max_e)%float = true).
Proof.
  intros errors max_e min_e Hmax Hmin.
  destruct errors as [ | x xs]; [ discriminate | ].
  cbn [py_max py_min] in Hmax, Hmin.
  injection Hmax as <-. injection Hmin as <-.
  destruct (fold_max_spec xs x) as [Hin Hb].
  destruct (fold_min_spec xs x) as [Hin' Hb']. cbv zeta in *.
  split; [ destruct Hin as [-> | Hin]; [ now left | now right ] | ].
  split; [ destruct Hin' as [-> | Hin']; [ now left | now right ] | ].
  intros Hnan. cbn [no_nan forallb] in Hnan.
  apply andb_true_iff in Hnan. destruct Hnan as [Hx Hxs].
  apply negb_true_iff in Hx.
  destruct (Hb Hx Hxs) as (_ & Hle & Hall).
  destruct (Hb' Hx Hxs) as (_ & Hle' & Hall').
  split; [ eapply leb_trans; eauto | ].
  intros y [<- | Hy]; [ now split | split; [ now apply Hall' | now apply Hall ] ].
Qed.

Lemma statistics_extrema_witness :
  let errors := [0.05; 0.10; -0.02]%float in
  In 0.10%float errors /\ In (-0.02)%float errors /\
  (no_nan errors = true ->
   (-0.02 <=? 0.10)%float = true /\
   forall x, In x errors ->
             (-0.02 <=? x)%float = true /\ (x <=? 0.10)%float = true).
Proof.
  apply (statistics_extrema [0.05; 0.10; -0.02]%float 0.10%float (-0.02)%float);
    reflexivity.
Defined.

Lemma supported_unit_converted (i : Z) (v : float) :
  supported_unit i -> exists f, convert_flow_to_m3_per_s v i = Ok (PyFloat f).
Proof.
  intros H. apply supported_unit_cases in H. cbn in H.
  repeat (destruct H as [<- | H]; [ eexists; reflexivity | ]).
  destruct H.
Qed.

Section PlottingFacts.

Variable axes_clear : result unit.
Variable axes_decorate : result unit.
Variable np_polyfit : list float -> list float -> result (float * float).
Variable matplotlib : artist -> result unit.
Variable canvas_draw : list artist -> result unit.

Local Abbreviation update_plot' :=
  (CalibrationPlot_update_plot axes_clear axes_decorate np_polyfit matplotlib canvas_draw).

(** The drawing calls put the artists on the axes in order, up to the
    first call that raises. *)
Lemma draw_artists_outcome (todo : list artist) :
  forall done : list artist,
    match draw_artists matplotlib todo done with
    | (arts, Ok _) => arts = done ++ todo
    | (arts, Raise e) =>
        exists drawn a rest,
          todo = drawn ++ a :: rest /\ arts = done ++ drawn /\ matplotlib a = Raise e
    end.
Proof.
  induction todo as [ | a todo IH]; intros done; cbn [draw_artists].
  - now rewrite app_nil_r.
  - destruct (matplotlib a) as [[] | e] eqn:Ha.
    + specialize (IH (done ++ [a])).
      destruct (draw_artists matplotlib todo (done ++ [a])) as [arts [[] | e]].
      * now rewrite <- app_assoc in IH.
      * destruct IH as (drawn & a' & rest & -> & -> & Hr).
        exists (a :: drawn), a', rest. rewrite <- app_assoc. now repeat split.
    + exists [], a, todo. rewrite app_nil_r. now repeat split.
Qed.

Lemma draw_artists_Forall (P : artist -> Prop) (todo done : list artist) :
  Forall P done -> Forall P todo ->
  Forall P (fst (draw_artists matplotlib todo done)).
Proof.
  intros Hd Ht. pose proof (draw_artists_outcome todo done) as H.
  destruct (draw_artists matplotlib todo done) as [arts [[] | e]]; cbn [fst].
  - subst arts. apply Forall_app. now split.
  - destruct H as (drawn & a & rest & -> & -> & _).
    apply Forall_app in Ht. apply Forall_app. tauto.
Qed.

Lemma draw_artists_raises (P : artist -> Prop) (todo done : list artist) (e : exn) :
  Forall P todo ->
  snd (draw_artists matplotlib todo done) = Raise e ->
  exists a, P a /\ matplotlib a = Raise e.
Proof.
  intros Ht. pose proof (draw_artists_outcome todo done) as H.
  destruct (draw_artists matplotlib todo done) as [arts [[] | e']]; cbn [snd];
    [ discriminate | ].
  intros [= ->]. destruct H as (drawn & a & rest & -> & _ & Ha).
  apply Forall_app in Ht. destruct Ht as [_ Ht]. inversion Ht; subst.
  now exists a.
Qed.

Lemma trend_line_called_for xs ys st trend :
  trend_line np_polyfit xs ys = Ok trend ->
  Forall (called_for np_polyfit xs ys st) trend.
Proof.
  unfold trend_line. destruct (1 <? len xs)%Z eqn:Hn; [ | intros [= <-]; constructor ].
  apply Z.ltb_lt in Hn.
  destruct (np_polyfit xs ys) as [[slope intercept] | e] eqn:Hfit; [ | discriminate ].
  destruct (py_min xs) as [x_from | e] eqn:Hmin; [ | discriminate ].
  destruct (py_max xs) as [x_to | e] eqn:Hmax; [ | discriminate ].
  intros [= <-]. constructor; [ | constructor ].
  cbn [called_for fst snd]. now repeat split.
Qed.

Lemma trend_line_raises xs ys e :
  trend_line np_polyfit xs ys = Raise e ->
  (1 < len xs)%Z /\ np_polyfit xs ys = Raise e.
Proof.
  unfold trend_line. destruct (1 <? len xs)%Z eqn:Hn; [ | discriminate ].
  apply Z.ltb_lt in Hn.
  destruct (np_polyfit xs ys) as [[slope intercept] | e'] eqn:Hfit;
    [ | intros [= ->]; now split ].
  destruct xs as [ | x xs]; [ cbn in Hn; lia | ]. discriminate.
Qed.

Lemma uncertainty_band_called_for xs ys st :
  Forall (called_for np_polyfit xs ys st) (uncertainty_band st).
Proof.
  unfold uncertainty_band. destruct (num_pos (std_error st)) eqn:Hs.
  - repeat constructor; exact Hs.
  - constructor.
Qed.

(** X15: what drawing the plot does, however it ends. Once the axes were
    cleared, every artist on them is one the data call for: the zero line,
    the points, a trend line only with two or more points and with the
    fitted coefficients, the uncertainty band only when the standard
    deviation is greater than 0, the statistics box and the legend; if
    clearing raised, the axes hold what they held. When the method returns,
    all of these are on the axes, in this order, and were drawn on the
    canvas. When it raises, the exception is that of clearing or decorating
    the axes, of the fit on two or more points, of putting one of these
    artists on the axes, or of drawing the canvas. *)
Theorem plot_drawing_cases :
  forall (before : list artist) (xs ys : list float) (st : Statistics),
    let arts := fst (update_plot' before xs ys st) in
    match axes_clear with
    | Ok _ => Forall (called_for np_polyfit xs ys st) arts
    | Raise _ => arts = before
    end /\
    match snd (update_plot' before xs ys st) with
    | Ok _ =>
        exists trend,
          trend_line np_polyfit xs ys = Ok trend /\
          arts = [ZeroLine; Scatter xs ys] ++ trend ++ uncertainty_band st
                   ++ [ StatsBox (mean_error st) (std_error st) (max_error st)
                                 (min_error st) (num_mul (PyInt 2) (std_error st));
                        Legend ] /\
          canvas_draw arts = Ok tt
    | Raise e =>
        axes_clear = Raise e \/
        axes_decorate = Raise e \/
        ((1 < len xs)%Z /\ np_polyfit xs ys = Raise e) \/
        (exists a, called_for np_polyfit xs ys st a /\ matplotlib a = Raise e) \/
        canvas_draw arts = Raise e
    end.
Proof.
  intros before xs ys st arts. subst arts.
  unfold CalibrationPlot_update_plot, reset_axes.
  destruct axes_clear as [[] | e0]; [ | split; [ reflexivity | now left ] ].
  destruct axes_decorate as [[] | e0];
    [ | split; [ constructor | right; now left ] ].
  set (P := called_for np_polyfit xs ys st).
  assert (H1 : Forall P [ZeroLine; Scatter xs ys])
    by (repeat constructor).
  assert (H3 : Forall P (uncertainty_band st
                           ++ [ StatsBox (mean_error st) (std_error st) (max_error st)
                                         (min_error st)
                                         (num_mul (PyInt 2) (std_error st));
                                Legend ])).
  { apply Forall_app. split; [ apply uncertainty_band_called_for | ].
    repeat constructor. }
  pose proof (draw_artists_Forall P [ZeroLine; Scatter xs ys] [] (Forall_nil P) H1) as F1.
  pose proof (draw_artists_raises P [ZeroLine; Scatter xs ys] []) as R1.
  pose proof (draw_artists_outcome [ZeroLine; Scatter xs ys] []) as O1.
  destruct (draw_artists matplotlib [ZeroLine; Scatter xs ys] []) as [done1 [[] | e1]];
    cbn [fst snd] in *;
    [ | split; [ exact F1 | do 3 right; left; now apply (R1 e1) ] ].
  destruct (trend_line np_polyfit xs ys) as [trend | e2] eqn:Htrend;
    [ | split; [ exact F1 | do 2 right; left; now apply trend_line_raises ] ].
  pose proof (trend_line_called_for xs ys st trend Htrend) as H2. fold P in H2.
  pose proof (draw_artists_Forall P trend done1 F1 H2) as F2.
  pose proof (draw_artists_raises P trend done1) as R2.
  pose proof (draw_artists_outcome trend done1) as O2.
  destruct (draw_artists matplotlib trend done1) as [done2 [[] | e2]];
    cbn [fst snd] in *;
    [ | split; [ exact F2 | do 3 right; left; now apply (R2 e2) ] ].
  pose proof (draw_artists_Forall P _ done2 F2 H3) as F3.
  pose proof (fun e => draw_artists_raises P _ done2 e H3) as R3.
  pose proof (draw_artists_outcome
                (uncertainty_band st
                   ++ [ StatsBox (mean_error st) (std_error st) (max_error st)
                                 (min_error st) (num_mul (PyInt 2) (std_error st));
                        Legend ]) done2) as O3.
  destruct (draw_artists matplotlib _ done2) as [done3 [[] | e3]];
    cbn [fst snd] in *;
    [ | split; [ exact F3 | do 3 right; left; now apply R3 ] ].
  split; [ exact F3 | ].
  destruct (canvas_draw done3) as [[] | e4] eqn:Hcanvas; [ | now do 4 right ].
  exists trend. split; [ reflexivity | ]. split; [ | reflexivity ].
  subst done3 done2 done1. reflexivity.
Qed.

(** How the method ends does not depend on what the axes held. *)
Lemma update_plot_ends_alike (before before' : list artist) xs ys st :
  snd (update_plot' before xs ys st) = snd (update_plot' before' xs ys st).
Proof.
  unfold CalibrationPlot_update_plot, reset_axes.
  destruct axes_clear as [[] | e]; reflexivity.
Qed.

End PlottingFacts.

(** X16: the first point of a session is always drawn. Whatever
    [np.polyfit] would do, when clearing and decorating the axes, putting
    the zero line, the point, the statistics box and the legend on them and
    drawing the canvas return, a click that puts the first point into an
    empty list draws it without trend line and without uncertainty band (its
    standard deviation is the integer 0), shows its statistics and no
    dialog. *)
Theorem first_point_is_always_drawn :
  forall (libm_pow : float -> float -> float * bool)
         (np_mean np_std : list float -> float)
         (axes_clear axes_decorate : result unit)
         (np_polyfit : list float -> list float -> result (float * float))
         (matplotlib : artist -> result unit)
         (canvas_draw : list artist -> result unit)
         (w : Window) (p : CalibrationPoint),
    let update_plot :=
      update_plot_with axes_clear axes_decorate np_polyfit matplotlib canvas_draw in
    let add_point := add_calibration_point libm_pow np_mean np_std update_plot in
    let arts :=
      [ ZeroLine; Scatter [velocidad_patron p] [error p];
        StatsBox (np_mean [error p]) (PyInt 0) (error p) (error p) (PyInt 0);
        Legend ] in
    calibration_data w = [] ->
    calibration_data (add_point w) = [p] ->
    axes_clear = Ok tt ->
    axes_decorate = Ok tt ->
    (forall a, In a arts -> matplotlib a = Ok tt) ->
    canvas_draw arts = Ok tt ->
    dialogs (add_point w) = dialogs w /\
    stats_text (add_point w)
    = Some (mkStatsText 1 (np_mean [error p]) (PyInt 0) (error p) (error p) (PyInt 0)
                        (velocidad_patron p) (velocidad_patron p)) /\
    exists st,
      plot_widget (add_point w) = PlotShown [velocidad_patron p] [error p] st /\
      CalibrationPlot_update_plot axes_clear axes_decorate np_polyfit matplotlib
                                  canvas_draw [] [velocidad_patron p] [error p] st
      = (arts, Ok tt).
Proof.
  intros libm_pow np_mean np_std axes_clear axes_decorate np_polyfit matplotlib
         canvas_draw w p update_plot add_point arts
         Hempty Hadd Hclear Hdecorate Hm Hcanvas.
  subst add_point.
  assert (Hp : new_point libm_pow w = Some p).
  { apply (add_calibration_point_new_point libm_pow np_mean np_std update_plot).
    now rewrite Hempty. }
  destruct (add_calibration_point_appends libm_pow np_mean np_std update_plot w p Hp)
    as (st & stx & Hd & Hst & ->).
  rewrite Hempty in *. cbn [app map] in *.
  injection Hst as <-.
  change (std_of np_std [error p]) with (PyInt 0) in *.
  assert (Hdraw : CalibrationPlot_update_plot
                    axes_clear axes_decorate np_polyfit matplotlib canvas_draw []
                    [velocidad_patron p] [error p]
                    (mkStatistics (np_mean [error p]) (PyInt 0) (error p) (error p))
                  = (arts, Ok tt)).
  { unfold CalibrationPlot_update_plot, reset_axes, trend_line, uncertainty_band.
    rewrite Hclear, Hdecorate. cbn.
    rewrite (Hm ZeroLine) by (cbn; tauto). cbn.
    rewrite (Hm (Scatter [velocidad_patron p] [error p])) by (cbn; tauto). cbn.
    rewrite (Hm (StatsBox (np_mean [error p]) (PyInt 0) (error p) (error p) (PyInt 0)))
      by (cbn; tauto). cbn.
    rewrite (Hm Legend) by (cbn; tauto). cbn.
    fold arts. now rewrite Hcanvas. }
  assert (Hup : update_plot [velocidad_patron p] [error p]
                  (mkStatistics (np_mean [error p]) (PyInt 0) (error p) (error p))
                = Ok tt)
    by (unfold update_plot, update_plot_with; now rewrite Hdraw).
  unfold draw_of, statistics_of. cbn [map py_max py_min fold_left].
  change (std_of np_std [error p]) with (PyInt 0).
  rewrite Hup. cbn.
  split; [ reflexivity | split ].
  - destruct Hd as (D1 & D2 & D3 & D4 & D5 & D6 & D7 & D8 & D9 & D10 & D11 & D12).
    cbn in D1, D2, D3, D4, D5, D6, D7, D8, D9, D10, D11, D12.
    injection D5 as D5. injection D6 as D6.
    destruct stx. cbn in D5, D6, D7, D8, D9, D10, D11, D12 |- *. congruence.
  - eexists. split; [ reflexivity | exact Hdraw ].
Qed.

Lemma first_point_is_always_drawn_witness :
  let w := typed (Numeric 114.3) (Numeric 6.02) (Numeric 10) (Numeric 0.35) in
  let add_point :=
    add_calibration_point rounded_pow sequential_mean two_pass_std
                          (plot_with failing_polyfit) in
  let p := hd (mkPoint 0 0 0 0) (calibration_data (add_point w)) in
  let arts :=
    [ ZeroLine; Scatter [velocidad_patron p] [error p];
      StatsBox (sequential_mean [error p]) (PyInt 0) (error p) (error p) (PyInt 0);
      Legend ] in
  dialogs (add_point w) = dialogs w /\
  stats_text (add_point w)
  = Some (mkStatsText 1 (sequential_mean [error p]) (PyInt 0) (error p) (error p) (PyInt 0)
                      (velocidad_patron p) (velocidad_patron p)) /\
  exists st,
    plot_widget (add_point w) = PlotShown [velocidad_patron p] [error p] st /\
    CalibrationPlot_update_plot (Ok tt) (Ok tt) failing_polyfit quiet_matplotlib
                                quiet_canvas [] [velocidad_patron p] [error p] st
    = (arts, Ok tt).
Proof.
  intros w add_point p arts.
  apply (first_point_is_always_drawn rounded_pow sequential_mean two_pass_std
           (Ok tt) (Ok tt) failing_polyfit quiet_matplotlib quiet_canvas w p).
  - reflexivity.
  - vm_compute. reflexivity.
  - reflexivity.
  - reflexivity.
  - intros a _. reflexivity.
  - reflexivity.
Defined.

(** ** Clearing *)

(** X17: clearing the calibration. Answering "No" changes nothing but the
    dialogs. Answering "Yes" leaves an empty list, an empty table, a cleared
    plot and an empty statistics box, whatever was there; after it an export
    writes nothing and warns that there is no data, and clearing again
    changes nothing more. *)
Theorem clear_calibration_resets :
  forall (np_mean np_std : list float -> float)
         (write_file : string -> Report -> result unit) (w : Window),
    let question :=
      Question "Confirmar" "¿Está seguro de limpiar todos los datos de calibración?" in
    let w1 := clear_calibration true w in
    clear_calibration false w = set_dialogs (dialogs w ++ [question]) w /\
    w1 = set_dialogs (dialogs w ++ [question])
           (set_stats_text None
              (set_plot_widget PlotCleared
                 (set_calib_table [] (set_calibration_data [] w)))) /\
    export_results np_mean np_std write_file w1
    = set_dialogs
        (dialogs w1 ++ [Warning "Error" "No hay datos de calibración para exportar."]) w1 /\
    clear_calibration true w1 = set_dialogs (dialogs w1 ++ [question]) w1.
Proof. intros np_mean np_std write_file w. repeat split. Qed.

(** X18: clearing the calculator empties its three inputs and its results
    and selects the first unit, without touching the calibration tab; a
    calculation right after it only warns that fields are missing. *)
Theorem clear_fields_then_calculate :
  forall (libm_pow : float -> float -> float * bool) (w : Window),
    let w1 := clear_fields w in
    text w1 caudal_input = Blank /\
    text w1 diametro_input = Blank /\
    text w1 espesor_input = Blank /\
    results_text w1 = None /\
    currentIndex w1 caudal_units = 0%Z /\
    (forall l, l <> caudal_input -> l <> diametro_input -> l <> espesor_input ->
               text w1 l = text w l) /\
    currentIndex w1 calib_caudal_units = currentIndex w calib_caudal_units /\
    calibration_data w1 = calibration_data w /\
    calib_table w1 = calib_table w /\
    plot_widget w1 = plot_widget w /\
    stats_text w1 = stats_text w /\
    dialogs w1 = dialogs w /\
    calculate_velocity libm_pow w1
    = set_dialogs (dialogs w1 ++ [Warning "Error" "Por favor, complete todos los campos."])
                  w1.
Proof.
  intros libm_pow w w1. subst w1.
  repeat (split; [ reflexivity | ]).
  split; [ intros l H1 H2 H3; destruct l; cbn; congruence | ].
  repeat (split; [ reflexivity | ]). reflexivity.
Qed.

(** ** Sessions of a user *)

Section UserSessions.

Variable libm_pow : float -> float -> float * bool.
Variable np_mean : list float -> float.
Variable np_std : list float -> float.
Variable update_plot : list float -> list float -> Statistics -> result unit.
Variable write_file : string -> Report -> result unit.

Local Abbreviation step' := (step libm_pow np_mean np_std update_plot write_file).
Local Abbreviation run' := (run libm_pow np_mean np_std update_plot write_file).

Lemma selectable_supported (c : ComboBox) (i : Z) : selectable c i -> supported_unit i.
Proof. unfold selectable, supported_unit. destruct c; cbn; lia. Qed.

Lemma step_units_supported w ev :
  user_event ev ->
  (forall c, supported_unit (currentIndex w c)) ->
  forall c, supported_unit (currentIndex (step' w ev) c).
Proof.
  intros Hev H c. destruct ev; cbn [step].
  - apply H.
  - cbn. destruct (ComboBox_eqb c0 c); [ now apply (selectable_supported c0) | apply H ].
  - rewrite calculate_velocity_preserves by reflexivity. apply H.
  - cbn. destruct c; cbn; [ unfold supported_unit; lia | apply H ].
  - destruct (new_point libm_pow w) as [p | ] eqn:Hp.
    + destruct (add_calibration_point_appends libm_pow np_mean np_std update_plot w p Hp)
        as (st & stx & _ & _ & ->).
      destruct (draw_of _ _ _ _) as [[] | ex]; [ | apply H ].
      cbv zeta. destruct (10 <=? _)%Z; apply H.
    + destruct (add_calibration_point_none libm_pow np_mean np_std update_plot w Hp)
        as (d & -> & _). apply H.
  - destruct reply_yes; apply H.
  - rewrite export_results_preserves by reflexivity. apply H.
Qed.

(** X19: the default of the conversion cannot be reached from the window. In
    every session in which the user only selects items that exist, both
    combo boxes always hold one of the seven units, so the conversion of any
    flow with the selected unit is a float and never the default 0. *)
Theorem session_units_are_supported :
  forall evs : list event,
    Forall user_event evs ->
    forall (c : ComboBox) (v : float),
      let i := currentIndex (run' evs initial_window) c in
      supported_unit i /\ exists f, convert_flow_to_m3_per_s v i = Ok (PyFloat f).
Proof.
  intros evs Hevs c v.
  assert (H : forall c, supported_unit (currentIndex (run' evs initial_window) c)).
  { assert (H0 : forall c, supported_unit (currentIndex initial_window c))
      by (intros c0; unfold supported_unit; cbn; lia).
    revert H0. generalize initial_window.
    induction Hevs as [ | ev evs Hev _ IH]; intros w H0; cbn [run fold_left].
    - exact H0.
    - apply IH. now apply step_units_supported. }
  split; [ apply H | apply supported_unit_converted, H ].
Qed.

End UserSessions.

(** ** Instances of the statements above on concrete sessions *)

Lemma user_event_points (n : nat) : Forall user_event (points n).
Proof.
  unfold points. induction n as [ | n IH]; cbn [repeat List.concat].
  - constructor.
  - apply Forall_app. split; [ | exact IH ].
    repeat constructor. unfold selectable. cbn. lia.
Qed.

(** The units of a session of two points. *)
Lemma session_units_are_supported_witness :
  let i := currentIndex (session (points 2) initial_window) calib_caudal_units in
  supported_unit i /\ exists f, convert_flow_to_m3_per_s 10 i = Ok (PyFloat f).
Proof.
  exact (session_units_are_supported
           rounded_pow sequential_mean two_pass_std quiet_plot quiet_write
           (points 2) (user_event_points 2) calib_caudal_units 10%float).
Defined.

(** The display of a session of two points, both drawn. *)
Lemma session_display_describes_calibration_data_witness :
  let w := session (points 2) initial_window in
  draws_return rounded_pow sequential_mean two_pass_std quiet_plot quiet_write
               (points 2) initial_window = true /\
  match calibration_data w with
  | [] => plot_widget w = PlotCleared /\ stats_text w = None
  | data =>
      exists st stx,
        describes sequential_mean two_pass_std data st stx /\
        plot_widget w = PlotShown (map velocidad_patron data) (map error data) st /\
        stats_text w = Some stx
  end.
Proof.
  assert (H : draws_return rounded_pow sequential_mean two_pass_std quiet_plot quiet_write
                           (points 2) initial_window = true)
    by (vm_compute; reflexivity).
  exact (conj H
           (session_display_describes_calibration_data
              rounded_pow sequential_mean two_pass_std quiet_plot quiet_write
              (points 2) H)).
Defined.

(** A second point whose trend fit fails: the first point was drawn, the
    second is stored and the drawing stops at the fit. *)
Lemma add_calibration_point_keeps_point_when_drawing_fails_witness :
  let update_plot := plot_with failing_polyfit in
  let w :=
    with_calibration_inputs (Numeric 114.3) (Numeric 6.02) (Numeric 20) (Numeric 0.70) 0
      (run rounded_pow sequential_mean two_pass_std update_plot quiet_write
           (enter_point 10 0.35) initial_window) in
  let add_point := add_calibration_point rounded_pow sequential_mean two_pass_std update_plot in
  let p := last (calibration_data (add_point w)) (mkPoint 0 0 0 0) in
  let data := calibration_data w ++ [p] in
  len data = 2%Z /\
  exists statistics : Statistics,
    statistics_of sequential_mean two_pass_std data = Ok statistics /\
    add_point w
    = set_dialogs
        (dialogs w ++ [Critical "Error" "Valores numéricos inválidos."])
        (set_plot_widget
           (PlotInterrupted (map velocidad_patron data) (map error data) statistics)
           (set_calib_table data (set_calibration_data data w))).
Proof.
  intros update_plot w add_point p data.
  split; [ vm_compute; reflexivity | ].
  apply (add_calibration_point_keeps_point_when_drawing_fails
           rounded_pow sequential_mean two_pass_std update_plot w p
           (LinAlgError "SVD did not converge in Linear Least Squares")).
  - vm_compute. reflexivity.
  - vm_compute. reflexivity.
Defined.

(** Two clicks in a row on the first point of a session. *)
Lemma add_calibration_point_twice_witness :
  let w := typed (Numeric 114.3) (Numeric 6.02) (Numeric 10) (Numeric 0.35) in
  let add_point := add_calibration_point rounded_pow sequential_mean two_pass_std quiet_plot in
  let w1 := add_point w in
  text w1 calib_caudal = Blank /\
  text w1 calib_velocidad_equipo = Blank /\
  text w1 calib_diametro = text w calib_diametro /\
  text w1 calib_espesor = text w calib_espesor /\
  add_point w1
  = set_dialogs (dialogs w1 ++ [Warning "Error" "Complete todos los campos."]) w1.
Proof.
  intros w add_point.
  apply (add_calibration_point_twice rounded_pow sequential_mean two_pass_std quiet_plot w).
  - vm_compute. discriminate.
  - vm_compute. reflexivity.
Defined.

(** The export of a session of two points. *)
Lemma export_results_matches_display_witness :
  let w :=
    session (points 2 ++ [Edit calib_diametro (Numeric 114.3)]) initial_window in
  let written :=
    last (files (export_results sequential_mean two_pass_std quiet_write w))
         (EmptyString,
          mkReport Blank Blank 0 [] 0 (PyInt 0) 0 0 (PyInt 0)) in
  exists stx : StatsText,
    stats_text w = Some stx /\
    fst written = filename (st_puntos stx) /\
    len (rp_puntos (snd written)) = st_puntos stx /\
    rp_mean_error (snd written) = st_mean_error stx /\
    rp_std_error (snd written) = st_std_error stx /\
    rp_max_error (snd written) = st_max_error stx /\
    rp_min_error (snd written) = st_min_error stx /\
    rp_incertidumbre (snd written) = st_incertidumbre stx.
Proof.
  intros w written.
  apply (export_results_matches_display
           rounded_pow sequential_mean two_pass_std quiet_plot quiet_write
           (points 2 ++ [Edit calib_diametro (Numeric 114.3)])
           (fst written) (snd written)).
  - vm_compute. reflexivity.
  - vm_compute. reflexivity.
Defined.
